(** * TypeDORM core: connection registry and transaction transformer

    A shallow embedding of
      - packages/core/src/classes/connection/connection.ts
      - packages/core/src/classes/transformer/document-client-transaction-transformer.ts
    JavaScript objects used as dictionaries are finite maps keyed by strings,
    arrays are lists, a thrown exception is the [Throw] result, and the
    mutable connection object is threaded through a small state-and-exception
    monad together with the trace of the calls it makes to its collaborators. *)

From stdpp Require Import gmap strings list fin_maps.
From Stdlib Require Import ZArith.

(** ** JavaScript values, exceptions and primitives *)

Module Common.

(** Values found in request objects (keys, expressions, attribute values). *)
#[warnings="-register-all"]
Inductive JsValue : Type :=
  | JsNull
  | JsBool (b : bool)
  | JsNumber (z : Z)
  | JsString (s : string)
  | JsArray (elements : list JsValue).

(** A plain JavaScript object: own properties by name. *)
Abbreviation JsObject := (gmap string JsValue).

(** An entity class: a constructor function, an object of its own, told from
    every other class by [target_identity]. Two classes may have the same
    [name], and [name] is all the code ever reads of a class. *)
Record EntityTarget : Type :=
  { target_name : string; target_identity : nat }.

(** An entity instance: its class and its own properties. *)
Record Entity : Type :=
  { entity_class : EntityTarget; entity_props : JsObject }.

(** The items of a transaction (transaction/write-transaction.ts,
    transaction/read-transaction.ts): an object with one of the properties
    [create], [update], [delete], [get]. [UnknownItem] is any other value a
    caller hands over. *)
Inductive TransactionItem : Type :=
  | CreateItem (item : Entity) (options : option JsObject)
  | UpdateItem (item : EntityTarget) (primaryKey body : JsObject)
               (options : option JsObject)
  | DeleteItem (item : EntityTarget) (primaryKey : JsObject)
               (options : option JsObject)
  | GetItem (item : EntityTarget) (primaryKey : JsObject)
            (options : option JsObject)
  | UnknownItem (shape : JsObject).

(** What the code throws. The first three are the [Error]s raised in
    connection.ts on a second [connect], by [getEntityByTarget] and by
    [getAttributesForEntity] (their message interpolates the name kept here),
    the next two are the classes imported from @typedorm/common, [TypeError]
    is the engine's own error on a property read of [undefined], and [Raised]
    stands for whatever a collaborator outside these two files throws. *)
Inductive exn : Type :=
  | AlreadyConnected
  | NoSuchEntity (entityName : string)
  | CannotFindAttributes (entityName : string)
  | InvalidTransactionWriteItemError (transactionItem : TransactionItem)
  | InvalidTransactionReadItemError (transactionItem : TransactionItem)
  | TypeError (readOf : string)
  | Raised (message : string).

Inductive Result (E A : Type) : Type :=
  | Ok (a : A)
  | Throw (e : E).
Arguments Ok {E A} a.
Arguments Throw {E A} e.

#[global] Instance Result_ret {E} : MRet (Result E) := fun _ a => Ok a.
#[global] Instance Result_bind {E} : MBind (Result E) :=
  fun _ _ k r => match r with Ok a => k a | Throw e => Throw e end.

Definition is_Ok {E A} (r : Result E A) : bool :=
  match r with Ok _ => true | Throw _ => false end.

(** [Array.prototype.some], [Array.prototype.includes] on an array of
    strings, [Object.keys], and [new Map(pairs)] (a later pair with the same
    key replaces an earlier one). *)
Definition some {A} (l : list A) (p : A → bool) : bool := existsb p l.

Definition includes (l : list string) (x : string) : bool :=
  existsb (String.eqb x) l.

Definition Object_keys {V} (o : gmap string V) : list string :=
  (map_to_list o).*1.

Definition new_Map {V} (pairs : list (string * V)) : gmap string V :=
  foldl (fun m kv => <[kv.1 := kv.2]> m) ∅ pairs.

End Common.
Export Common.

(** ** Entity metadata *)

Module Metadata.

(** [DynamoEntitySchemaPrimaryKey]: the code reads its optional
    [metadata._interpolations], an object that gives for every key of the
    schema the array of attribute names the key is interpolated from (the
    array is searched with [includes(attributeName)]). *)
Record PrimaryKeyMetadata : Type :=
  { _interpolations : option (gmap string (list string)) }.

Record DynamoEntitySchemaPrimaryKey : Type :=
  { metadata : PrimaryKeyMetadata }.

(** Members of [EntityMetadata.attributes]: plain attributes carry the
    optional [unique] key schema, auto-generated ones the [autoUpdate] flag. *)
Inductive AttributeMetadataType : Type :=
  | AttributeMetadata (name : string)
                      (unique : option DynamoEntitySchemaPrimaryKey)
  | AutoGeneratedAttributeMetadata (name : string) (autoUpdate : bool).

Definition attr_name (attr : AttributeMetadataType) : string :=
  match attr with
  | AttributeMetadata name _ => name
  | AutoGeneratedAttributeMetadata name _ => name
  end.

(** [(attr as AttributeMetadata)?.unique] *)
Definition attr_unique (attr : AttributeMetadataType)
  : option DynamoEntitySchemaPrimaryKey :=
  match attr with
  | AttributeMetadata _ unique => unique
  | AutoGeneratedAttributeMetadata _ _ => None
  end.

(** [(attr as AutoGeneratedAttributeMetadata)?.autoUpdate], as a truth value *)
Definition attr_autoUpdate (attr : AttributeMetadataType) : bool :=
  match attr with
  | AttributeMetadata _ _ => false
  | AutoGeneratedAttributeMetadata _ autoUpdate => autoUpdate
  end.

Record EntitySchema : Type :=
  { primaryKey : DynamoEntitySchemaPrimaryKey }.

Record EntityMetadata : Type :=
  { target : EntityTarget;
    schema : EntitySchema;
    entity_attributes : list AttributeMetadataType }.

End Metadata.
Export Metadata.

(** ** connection.ts *)

Module Connection.

Record Table : Type := { table_name : string }.

Inductive DocumentClient : Type :=
  | SuppliedDocumentClient (label : string)
  | NewDocumentClient.

Record ConnectionOptions : Type :=
  { opt_table : option Table;
    opt_name : option string;
    opt_entities : list EntityTarget;
    opt_documentClient : option DocumentClient;
    opt_dynamoQueryItemsImplicitLimit : option N }.

Record DefaultConfig : Type := { queryItemsImplicitLimit : N }.

(** The fields of a [Connection] the methods below read or write.
    [_entityMetadatas] has no initialiser: it is [undefined] ([None]) until
    [connect] assigns it. The managers and the logger the constructor also
    creates are objects of other classes, which these methods do not use. *)
Record Connection : Type :=
  { name : string;
    table : option Table;
    defaultConfig : DefaultConfig;
    documentClient : DocumentClient;
    options : ConnectionOptions;
    _entityMetadatas : option (gmap string EntityMetadata);
    isConnected : bool }.

Definition set_entityMetadatas (m : gmap string EntityMetadata)
  (c : Connection) : Connection :=
  {| name := name c; table := table c; defaultConfig := defaultConfig c;
     documentClient := documentClient c; options := options c;
     _entityMetadatas := Some m; isConnected := isConnected c |}.

Definition set_isConnected (b : bool) (c : Connection) : Connection :=
  {| name := name c; table := table c; defaultConfig := defaultConfig c;
     documentClient := documentClient c; options := options c;
     _entityMetadatas := _entityMetadatas c; isConnected := b |}.

(** Calls the connection makes to the objects it was given: the metadata
    builder and the [destroySelf] callback of its constructor. *)
Inductive Event : Type :=
  | BuildEntityMetadatas (entities : list EntityTarget)
  | DestroySelf (connectionName : string).

(** The connection object and the calls made so far, oldest first. *)
Record World : Type := { self : Connection; trace : list Event }.

(** State and exceptions: a statement maps the world to its outcome and the
    world it leaves behind, also when it throws. *)
Definition M (A : Type) : Type := World → Result exn A * World.

#[global] Instance M_ret : MRet M := fun _ a w => (Ok a, w).
#[global] Instance M_bind : MBind M :=
  fun _ _ k m w =>
    match m w with
    | (Ok a, w') => k a w'
    | (Throw e, w') => (Throw e, w')
    end.

Definition throw {A} (e : exn) : M A := fun w => (Throw e, w).
Definition this : M Connection := fun w => (Ok (self w), w).
Definition modify (f : Connection → Connection) : M unit :=
  fun w => (Ok tt, {| self := f (self w); trace := trace w |}).
Definition emit (ev : Event) : M unit :=
  fun w => (Ok tt, {| self := self w; trace := trace w ++ [ev] |}).
Definition lift {A} (r : Result exn A) : M A := fun w => (r, w).
Definition try_catch {A} (body : M A) (handler : exn → M A) : M A :=
  fun w =>
    match body w with
    | (Ok a, w') => (Ok a, w')
    | (Throw e, w') => handler e w'
    end.

Section WithCollaborators.

(** The value of [DYNAMO_QUERY_ITEMS_IMPLICIT_LIMIT] (@typedorm/common) and
    [ConnectionMetadataBuilder.buildEntityMetadatas], which either returns
    the metadata of the entities it is given or throws. *)
Variable DYNAMO_QUERY_ITEMS_IMPLICIT_LIMIT : N.
Variable buildEntityMetadatas :
  list EntityTarget → Result exn (list EntityMetadata).

(** [constructor(options, destroySelf)] *)
Definition constructor (options : ConnectionOptions) : Connection :=
  {| name := default "default" (opt_name options);
     table := opt_table options;
     defaultConfig :=
       {| queryItemsImplicitLimit :=
            default DYNAMO_QUERY_ITEMS_IMPLICIT_LIMIT
                    (opt_dynamoQueryItemsImplicitLimit options) |};
     documentClient := default NewDocumentClient (opt_documentClient options);
     options := options;
     _entityMetadatas := None;
     isConnected := false |}.

(** [buildMetadatas()] *)
Definition buildMetadatas : M (list EntityMetadata) :=
  c ← this;
  emit (BuildEntityMetadatas (opt_entities (options c)));;
  lift (buildEntityMetadatas (opt_entities (options c))).

(** [destroySelf(name)]: the callback is invoked; what it does belongs to
    the connection manager. *)
Definition destroySelf (name : string) : M unit := emit (DestroySelf name).

(** [connect()] *)
Definition connect : M Connection :=
  c ← this;
  if isConnected c then throw AlreadyConnected
  else
    try_catch
      (metas ← buildMetadatas;
       modify (set_entityMetadatas
                 (new_Map ((fun entityMeta =>
                              (target_name (target entityMeta), entityMeta))
                             <$> metas)));;
       modify (set_isConnected true);;
       this)
      (fun err => destroySelf (name c);; throw err).

End WithCollaborators.

(** [getEntityByTarget(entityClass)] *)
Definition getEntityByTarget (c : Connection) (entityClass : EntityTarget)
  : Result exn EntityMetadata :=
  match _entityMetadatas c with
  | None => Throw (TypeError "get")
  | Some metas =>
      match metas !! target_name entityClass with
      | None => Throw (NoSuchEntity (target_name entityClass))
      | Some metadata => Ok metadata
      end
  end.

(** [hasMetadata(entityClass)]: [!!] of an object is [true]. *)
Definition hasMetadata (c : Connection) (entityClass : EntityTarget)
  : Result exn bool :=
  _ ← getEntityByTarget c entityClass;
  mret true.

(** [getAttributesForEntity(entityClass)] *)
Definition getAttributesForEntity (c : Connection) (entityClass : EntityTarget)
  : Result exn (list AttributeMetadataType) :=
  match _entityMetadatas c with
  | None => Throw (TypeError "get")
  | Some metas =>
      match metas !! target_name entityClass with
      | None => Throw (CannotFindAttributes (target_name entityClass))
      | Some attributesMap => Ok (entity_attributes attributesMap)
      end
  end.

(** [get globalTable()] *)
Definition globalTable (c : Connection) : option Table := table c.

(** [isUsedForPrimaryKey(primaryKey, attributeName)]. The callback of [some]
    reads [primaryKeyInterpolations[key]] at an own key of the object, where
    the lookup cannot miss ([Object_keys_lookup] below); the [None] branch is
    never taken. *)
Definition isUsedForPrimaryKey (primaryKey : DynamoEntitySchemaPrimaryKey)
  (attributeName : string) : bool :=
  let primaryKeyInterpolations :=
    default ∅ (_interpolations (metadata primaryKey)) in
  some (Object_keys primaryKeyInterpolations) (fun key =>
    match primaryKeyInterpolations !! key with
    | Some currInterpolation => includes currInterpolation attributeName
    | None => false
    end).

Module Helpers.

(** Modelled from the spec: helpers/is-used-for-primary-key.ts, which
    [getUniqueAttributesForEntity] imports, is not among the sources. The
    spec has one [isUsedForPrimaryKey(primaryKeySchema, attributeName)], which
    answers whether the attribute takes part in the composition of a key; it
    is the function of that name above. *)
Definition isUsedForPrimaryKey (primaryKey : DynamoEntitySchemaPrimaryKey)
  (attributeName : string) : bool :=
  Connection.isUsedForPrimaryKey primaryKey attributeName.

End Helpers.

(** [getUniqueAttributesForEntity(entityClass)]. [getEntityByTarget] returns
    an object or throws, so the guard [if (!entityMetadata)] never fires. The
    filter keeps an attribute when [attr?.unique && !isUsedForPrimaryKey(..)]
    is truthy; [unique], when present, is an object. *)
Definition getUniqueAttributesForEntity (c : Connection)
  (entityClass : EntityTarget) : Result exn (list AttributeMetadataType) :=
  entityMetadata ← getEntityByTarget c entityClass;
  attrs ← getAttributesForEntity c entityClass;
  mret (List.filter
          (fun attr =>
             bool_decide (is_Some (attr_unique attr))
             && negb (Helpers.isUsedForPrimaryKey
                        (primaryKey (schema entityMetadata)) (attr_name attr)))
          attrs).

(** [getAutoUpdateAttributes(entityClass)] *)
Definition getAutoUpdateAttributes (c : Connection)
  (entityClass : EntityTarget) : Result exn (list AttributeMetadataType) :=
  attrs ← getAttributesForEntity c entityClass;
  mret (List.filter attr_autoUpdate attrs).

End Connection.

(** ** document-client-transaction-transformer.ts *)

Module Transformer.

(** Request shapes of the document client: plain objects. *)
Abbreviation GetItemInput := JsObject.
Abbreviation PutItemInput := JsObject.
Abbreviation UpdateItemInput := JsObject.
Abbreviation DeleteItemInput := JsObject.

(** Members of [DocumentClient.TransactWriteItemList] and
    [DocumentClient.TransactGetItemList]: an object with the one property
    [Put], [Update], [Delete], or [Get]. *)
Inductive TransactWriteItem : Type :=
  | Put (input : PutItemInput)
  | Update (input : UpdateItemInput)
  | Delete (input : DeleteItemInput).

Inductive TransactGetItem : Type :=
  | Get (input : GetItemInput).

(** [LazyTransactionWriteItemListLoader]: what it needs to read the stored
    item and the function from that item to the operations. Nothing in this
    file applies [lazyLoadTransactionWriteItems]. *)
Record LazyTransactionWriteItemListLoader : Type :=
  { entityClass : EntityTarget;
    primaryKeyAttributes : JsObject;
    lazyLoadTransactionWriteItems : JsObject → list TransactWriteItem }.

(** Modelled from the spec: transaction/type-guards.ts and
    is-lazy-transaction-write-item-list-loader.ts are not among the sources.
    The results of the low-order transformers are the unions the spec names:
    [toDynamoPutItem] gives a plain operation or a list, [toDynamoUpdateItem]
    and [toDynamoDeleteItem] a plain operation or a deferred expansion. The
    guards [isWriteTransactionItemList] and
    [isLazyTransactionWriteItemListLoader] tell the members of these unions
    apart, and [isTransactionAddCreateItem], [isTransactionAddUpdateItem],
    [isTransactionAddDeleteItem], [isTransactionAddGetItem] the kinds of
    [TransactionItem]. *)
Inductive PutItemOutput : Type :=
  | PutSingle (input : PutItemInput)
  | PutList (items : list TransactWriteItem).

Inductive MaybeLazy (Input : Type) : Type :=
  | Plain (input : Input)
  | Lazy (loader : LazyTransactionWriteItemListLoader).
Arguments Plain {Input} input.
Arguments Lazy {Input} loader.

Definition isWriteTransactionItemList (r : PutItemOutput) : bool :=
  match r with PutList _ => true | PutSingle _ => false end.

Definition isLazyTransactionWriteItemListLoader {Input} (r : MaybeLazy Input)
  : bool :=
  match r with Lazy _ => true | Plain _ => false end.

Definition isTransactionAddCreateItem (transactionItem : TransactionItem) : bool :=
  match transactionItem with CreateItem _ _ => true | _ => false end.

Definition isTransactionAddUpdateItem (transactionItem : TransactionItem) : bool :=
  match transactionItem with UpdateItem _ _ _ _ => true | _ => false end.

Definition isTransactionAddDeleteItem (transactionItem : TransactionItem) : bool :=
  match transactionItem with DeleteItem _ _ _ => true | _ => false end.

Definition isTransactionAddGetItem (transactionItem : TransactionItem) : bool :=
  match transactionItem with GetItem _ _ _ => true | _ => false end.

(** Modelled from the spec: helpers/drop-prop.ts is not among the sources.
    [dropProp(obj, prop)] is the object [obj] without its property [prop]. *)
Definition dropProp (obj : JsObject) (prop : string) : JsObject :=
  delete prop obj.

(** The base class [LowOrderTransformers] (low-order-transformers.ts, not
    among the sources): one synchronous method per kind of item, which
    returns its result or throws. *)
Class LowOrderTransformers : Type :=
  { toDynamoGetItem :
      EntityTarget → JsObject → option JsObject → Result exn GetItemInput;
    toDynamoPutItem :
      Entity → option JsObject → Result exn PutItemOutput;
    toDynamoUpdateItem :
      EntityTarget → JsObject → JsObject → option JsObject →
      Result exn (MaybeLazy UpdateItemInput);
    toDynamoDeleteItem :
      EntityTarget → JsObject → option JsObject →
      Result exn (MaybeLazy DeleteItemInput) }.

(** [Array.prototype.reduce] with a callback that may throw: the exception
    ends the iteration. *)
Fixpoint reduce {A B} (callback : B → A → Result exn B) (l : list A)
  (initial : B) : Result exn B :=
  match l with
  | [] => Ok initial
  | x :: l' => acc ← callback initial x; reduce callback l' acc
  end.

(** The accumulators of the two reductions. [push] appends at the end. *)
Record ReadAcc : Type :=
  { read_transactionItemList : list TransactGetItem }.

Record WriteAcc : Type :=
  { transactionItemList : list TransactWriteItem;
    lazyTransactionWriteItemListLoader :
      list LazyTransactionWriteItemListLoader }.

Definition push_item (ops : list TransactWriteItem) (acc : WriteAcc) : WriteAcc :=
  {| transactionItemList := transactionItemList acc ++ ops;
     lazyTransactionWriteItemListLoader :=
       lazyTransactionWriteItemListLoader acc |}.

Definition push_lazy (loader : LazyTransactionWriteItemListLoader)
  (acc : WriteAcc) : WriteAcc :=
  {| transactionItemList := transactionItemList acc;
     lazyTransactionWriteItemListLoader :=
       lazyTransactionWriteItemListLoader acc ++ [loader] |}.

(** Calls to [connection.logger.logTransformTransaction]. *)
Inductive TRANSFORM_TRANSACTION_TYPE : Type :=
  | TRANSACTION_WRITE
  | TRANSACTION_READ.

Inductive Stage : Type := Before | After.

Inductive Logged : Type :=
  | LoggedItems (items : list TransactionItem)
  | LoggedRead (transformed : ReadAcc)
  | LoggedWrite (transformed : WriteAcc).

Record LogEntry : Type :=
  { log_type : TRANSFORM_TRANSACTION_TYPE;
    log_stage : Stage;
    log_payload : Logged }.

(** The entry points run against the log written so far and leave the log
    they have written, also when they throw. *)
Definition Logging (A : Type) : Type :=
  list LogEntry → Result exn A * list LogEntry.

Definition logEntry (type : TRANSFORM_TRANSACTION_TYPE) (stage : Stage)
  (payload : Logged) : LogEntry :=
  {| log_type := type; log_stage := stage; log_payload := payload |}.

Definition logTransformTransaction (type : TRANSFORM_TRANSACTION_TYPE)
  (stage : Stage) (payload : Logged) : Logging unit :=
  fun log => (Ok tt, log ++ [logEntry type stage payload]).

#[global] Instance Logging_ret : MRet Logging := fun _ a log => (Ok a, log).
#[global] Instance Logging_bind : MBind Logging :=
  fun _ _ k m log =>
    match m log with
    | (Ok a, log') => k a log'
    | (Throw e, log') => (Throw e, log')
    end.

Definition run {A} (r : Result exn A) : Logging A := fun log => (r, log).

Section WithLowOrderTransformers.

Context {transformers : LowOrderTransformers}.

(** The callback of the reduction in [innerTransformTransactionReadItems] *)
Definition readCallback (acc : ReadAcc) (transactionItem : TransactionItem)
  : Result exn ReadAcc :=
  match transactionItem with
  | GetItem item primaryKey options =>
      dynamoGetItemInput ← toDynamoGetItem item primaryKey options;
      mret {| read_transactionItemList :=
                read_transactionItemList acc ++ [Get dynamoGetItemInput] |}
  | _ => Throw (InvalidTransactionReadItemError transactionItem)
  end.

(** [innerTransformTransactionReadItems(transactionItems)] *)
Definition innerTransformTransactionReadItems
  (transactionItems : list TransactionItem) : Result exn ReadAcc :=
  reduce readCallback transactionItems {| read_transactionItemList := [] |}.

(** The callback of the reduction in [innerTransformTransactionWriteItems] *)
Definition writeCallback (acc : WriteAcc) (transactionItem : TransactionItem)
  : Result exn WriteAcc :=
  match transactionItem with
  | CreateItem item options =>
      dynamoPutItemInput ← toDynamoPutItem item options;
      match dynamoPutItemInput with
      | PutSingle input => mret (push_item [Put input] acc)
      | PutList items => mret (push_item items acc)
      end
  | UpdateItem item primaryKey body options =>
      dynamoUpdateItemInput ← toDynamoUpdateItem item primaryKey body options;
      match dynamoUpdateItemInput with
      | Plain input =>
          mret (push_item [Update (dropProp input "ReturnValues")] acc)
      | Lazy loader => mret (push_lazy loader acc)
      end
  | DeleteItem item primaryKey options =>
      dynamoDeleteItemInput ← toDynamoDeleteItem item primaryKey options;
      match dynamoDeleteItemInput with
      | Plain input => mret (push_item [Delete input] acc)
      | Lazy loader => mret (push_lazy loader acc)
      end
  | _ => Throw (InvalidTransactionWriteItemError transactionItem)
  end.

(** [innerTransformTransactionWriteItems(transactionItems)] *)
Definition innerTransformTransactionWriteItems
  (transactionItems : list TransactionItem) : Result exn WriteAcc :=
  reduce writeCallback transactionItems
         {| transactionItemList := [];
            lazyTransactionWriteItemListLoader := [] |}.

(** [toDynamoWriteTransactionItems(writeTransaction)], on the items of the
    transaction *)
Definition toDynamoWriteTransactionItems (items : list TransactionItem)
  : Logging WriteAcc :=
  logTransformTransaction TRANSACTION_WRITE Before (LoggedItems items);;
  transformed ← run (innerTransformTransactionWriteItems items);
  logTransformTransaction TRANSACTION_WRITE After (LoggedWrite transformed);;
  mret transformed.

(** [toDynamoReadTransactionItems(readTransaction)], on the items of the
    transaction *)
Definition toDynamoReadTransactionItems (items : list TransactionItem)
  : Logging ReadAcc :=
  logTransformTransaction TRANSACTION_READ Before (LoggedItems items);;
  transformed ← run (innerTransformTransactionReadItems items);
  logTransformTransaction TRANSACTION_READ After (LoggedRead transformed);;
  mret transformed.

End WithLowOrderTransformers.

End Transformer.

(** ** The registry a successful [connect] installs *)

Import Connection.

Definition registryOf (metas : list EntityMetadata) : gmap string EntityMetadata :=
  new_Map ((fun entityMeta => (target_name (target entityMeta), entityMeta))
             <$> metas).

(** An entity name is declared when the builder returned metadata for a
    class of that name. *)
Definition declared (metas : list EntityMetadata) (entityClass : EntityTarget)
  : Prop :=
  ∃ m, m ∈ metas ∧ target_name (target m) = target_name entityClass.

(** An attribute name is referred to by a key of the schema. *)
Definition usedInPrimaryKey (primaryKey : DynamoEntitySchemaPrimaryKey)
  (attributeName : string) : Prop :=
  ∃ key currInterpolation,
    default ∅ (_interpolations (metadata primaryKey)) !! key
      = Some currInterpolation
    ∧ attributeName ∈ currInterpolation.

(** ** The collecting phase in the words of the specification

    Every item is dispatched to its transformer by kind; a plain result and a
    list-valued result are flattened into the operation list in the order of
    the items, a deferred expansion goes to the pending queue. *)

Module Composer.

Import Transformer.

Inductive ItemResult : Type :=
  | Resolved (operations : list TransactWriteItem)
  | Pending (loader : LazyTransactionWriteItemListLoader).

Definition operationsOf (r : ItemResult) : list TransactWriteItem :=
  match r with Resolved operations => operations | Pending _ => [] end.

Definition pendingOf (r : ItemResult)
  : list LazyTransactionWriteItemListLoader :=
  match r with Resolved _ => [] | Pending loader => [loader] end.

(** What the accumulator of the reduction is after an item with result [r]. *)
Definition absorb (r : ItemResult) (acc : WriteAcc) : WriteAcc :=
  {| transactionItemList := transactionItemList acc ++ operationsOf r;
     lazyTransactionWriteItemListLoader :=
       lazyTransactionWriteItemListLoader acc ++ pendingOf r |}.

Section WithLowOrderTransformers.

Context {transformers : LowOrderTransformers}.

Definition transformItem (transactionItem : TransactionItem)
  : Result exn ItemResult :=
  match transactionItem with
  | CreateItem item options =>
      r ← toDynamoPutItem item options;
      mret (match r with
            | PutSingle input => Resolved [Put input]
            | PutList items => Resolved items
            end)
  | UpdateItem item primaryKey body options =>
      r ← toDynamoUpdateItem item primaryKey body options;
      mret (match r with
            | Plain input => Resolved [Update (dropProp input "ReturnValues")]
            | Lazy loader => Pending loader
            end)
  | DeleteItem item primaryKey options =>
      r ← toDynamoDeleteItem item primaryKey options;
      mret (match r with
            | Plain input => Resolved [Delete input]
            | Lazy loader => Pending loader
            end)
  | _ => Throw (InvalidTransactionWriteItemError transactionItem)
  end.

Fixpoint transformAll (transactionItems : list TransactionItem)
  : Result exn (list ItemResult) :=
  match transactionItems with
  | [] => Ok []
  | transactionItem :: rest =>
      r ← transformItem transactionItem;
      rs ← transformAll rest;
      mret (r :: rs)
  end.

Definition collect (transactionItems : list TransactionItem)
  : Result exn WriteAcc :=
  rs ← transformAll transactionItems;
  mret {| transactionItemList := concat (operationsOf <$> rs);
          lazyTransactionWriteItemListLoader := concat (pendingOf <$> rs) |}.

End WithLowOrderTransformers.

End Composer.

(** ** Sample entities, builders and transformers *)

Module Examples.

Import Transformer.

Definition User : EntityTarget :=
  {| target_name := "User"; target_identity := 1 |}.
Definition Order : EntityTarget :=
  {| target_name := "Order"; target_identity := 2 |}.
Definition Invoice : EntityTarget :=
  {| target_name := "Invoice"; target_identity := 3 |}.

(** Keys [PK = USER#{{id}}] and [SK = USER#{{id}}#{{name}}]. *)
Definition userPrimaryKey : DynamoEntitySchemaPrimaryKey :=
  {| metadata :=
       {| _interpolations :=
            Some (<["PK" := ["id"]]> (<["SK" := ["id"; "name"]]> ∅)) |} |}.

Definition lockKey (attributeName : string) : DynamoEntitySchemaPrimaryKey :=
  {| metadata :=
       {| _interpolations := Some (<["PK" := [attributeName]]> ∅) |} |}.

Definition orderPrimaryKey : DynamoEntitySchemaPrimaryKey :=
  {| metadata := {| _interpolations := None |} |}.

Definition userAttributes : list AttributeMetadataType :=
  [ AttributeMetadata "id" (Some (lockKey "id"));
    AttributeMetadata "name" None;
    AttributeMetadata "email" (Some (lockKey "email"));
    AutoGeneratedAttributeMetadata "updatedAt" true ].

Definition userMetadata : EntityMetadata :=
  {| target := User;
     schema := {| primaryKey := userPrimaryKey |};
     entity_attributes := userAttributes |}.

Definition orderMetadata : EntityMetadata :=
  {| target := Order;
     schema := {| primaryKey := orderPrimaryKey |};
     entity_attributes := [AttributeMetadata "id" None] |}.

Definition sampleOptions : ConnectionOptions :=
  {| opt_table := Some {| table_name := "main" |};
     opt_name := None;
     opt_entities := [User; Order];
     opt_documentClient := None;
     opt_dynamoQueryItemsImplicitLimit := None |}.

Definition sampleBuilder (entities : list EntityTarget)
  : Result exn (list EntityMetadata) :=
  Ok [userMetadata; orderMetadata].

Definition failingBuilder (entities : list EntityTarget)
  : Result exn (list EntityMetadata) :=
  Throw (Raised "invalid key template").

Definition freshWorld : World :=
  {| self := constructor 3000 sampleOptions; trace := [] |}.

Definition connectedWorld : World :=
  (connect sampleBuilder freshWorld).2.

(** Transformers of an entity [User] with the unique attribute [email]:
    a create also puts the lock record, an update of [email] and every delete
    are deferred. Other entities have no unique attribute. *)
Definition request (entity : EntityTarget) (primaryKey : JsObject) : JsObject :=
  <["TableName" := JsString "main"]>
    (<["Entity" := JsString (target_name entity)]> primaryKey).

Definition sampleLoader (entity : EntityTarget) (primaryKey : JsObject)
  : LazyTransactionWriteItemListLoader :=
  {| entityClass := entity;
     primaryKeyAttributes := primaryKey;
     lazyLoadTransactionWriteItems := fun previous =>
       [Delete (request entity primaryKey); Delete (request entity previous)] |}.

Definition named (entityName : string) (entity : EntityTarget) : bool :=
  String.eqb entityName (target_name entity).

Definition sampleTransformers : LowOrderTransformers :=
  {| toDynamoGetItem entity primaryKey options :=
       Ok (request entity primaryKey);
     toDynamoPutItem item options :=
       if named "User" (entity_class item)
       then Ok (PutList [Put (request User (entity_props item));
                         Put (request User {["lock" := JsString "email"]})])
       else Ok (PutSingle (request (entity_class item) (entity_props item)));
     toDynamoUpdateItem entity primaryKey body options :=
       if named "User" entity && bool_decide (is_Some (body !! "email"))
       then Ok (Lazy (sampleLoader entity primaryKey))
       else Ok (Plain (<["ReturnValues" := JsString "ALL_NEW"]>
                         (request entity (primaryKey ∪ body))));
     toDynamoDeleteItem entity primaryKey options :=
       if named "User" entity
       then Ok (Lazy (sampleLoader entity primaryKey))
       else if named "Invoice" entity
       then Throw (NoSuchEntity "Invoice")
       else Ok (Plain (request entity primaryKey)) |}.

Definition key (id : string) : JsObject := {["id" := JsString id]}.

Definition createOrder : TransactionItem :=
  CreateItem {| entity_class := Order; entity_props := key "o1" |} None.

Definition createUser : TransactionItem :=
  CreateItem {| entity_class := User; entity_props := key "u1" |} None.

Definition updateOrder : TransactionItem :=
  UpdateItem Order (key "o1") {["total" := JsNumber 7]} None.

Definition updateUserEmail : TransactionItem :=
  UpdateItem User (key "u1") {["email" := JsString "a@b.c"]} None.

Definition deleteOrder : TransactionItem := DeleteItem Order (key "o2") None.
Definition deleteUser : TransactionItem := DeleteItem User (key "u2") None.
Definition getOrder : TransactionItem := GetItem Order (key "o1") None.

End Examples.

(** A class is declared when the builder returned metadata for that very
    class. *)
Definition declaredClass (metas : list EntityMetadata)
  (entityClass : EntityTarget) : Prop :=
  ∃ m, m ∈ metas ∧ target m = entityClass.

(** ** The life cycle of a connection *)

Module Lifecycle.

(** The flag and the registry go together: the connection is connected
    exactly when [_entityMetadatas] has been assigned. *)
Definition registryInstalled (c : Connection) : Prop :=
  isConnected c = true ↔ is_Some (_entityMetadatas c).

(** What [connect] leaves alone: every field but the registry and the flag. *)
Definition sameSettings (c c' : Connection) : Prop :=
  name c' = name c
  ∧ table c' = table c
  ∧ defaultConfig c' = defaultConfig c
  ∧ documentClient c' = documentClient c
  ∧ options c' = options c.

End Lifecycle.

(** ** [getEntityByPhysicalName] *)

Module PhysicalName.

(** What [getEntityDefinition(name)] of @typedorm/common returns when the
    physical name is known; the code reads its [target]. *)
Record EntityDefinition : Type := { definition_target : EntityTarget }.

(** The method throws its own [Error], which names the physical name, or
    lets the exception of [getEntityByTarget] through. *)
Inductive PhysicalNameError : Type :=
  | NoSuchPhysicalName (physicalName : string)
  | FromLookup (err : exn).

Section WithDefinitions.

Variable getEntityDefinition : string → option EntityDefinition.

(** [getEntityByPhysicalName(name)] *)
Definition getEntityByPhysicalName (c : Connection) (name : string)
  : Result PhysicalNameError EntityMetadata :=
  match getEntityDefinition name with
  | None => Throw (NoSuchPhysicalName name)
  | Some entitySpec =>
      match getEntityByTarget c (definition_target entitySpec) with
      | Ok metadata => Ok metadata
      | Throw err => Throw (FromLookup err)
      end
  end.

End WithDefinitions.

End PhysicalName.

(** ** The read reduction, item by item *)

Module ReadItems.

Import Transformer.

Section WithLowOrderTransformers.

Context {transformers : LowOrderTransformers}.

(** The request a read item is transformed to. *)
Definition transformReadItem (transactionItem : TransactionItem)
  : Result exn GetItemInput :=
  match transactionItem with
  | GetItem item primaryKey options => toDynamoGetItem item primaryKey options
  | _ => Throw (InvalidTransactionReadItemError transactionItem)
  end.

Fixpoint transformReadAll (transactionItems : list TransactionItem)
  : Result exn (list GetItemInput) :=
  match transactionItems with
  | [] => Ok []
  | transactionItem :: rest =>
      input ← transformReadItem transactionItem;
      inputs ← transformReadAll rest;
      mret (input :: inputs)
  end.

End WithLowOrderTransformers.

End ReadItems.

(** More sample data. *)

Module MoreExamples.

Import Transformer Examples PhysicalName.

Definition userMetadataV2 : EntityMetadata :=
  {| target := User;
     schema := {| primaryKey := orderPrimaryKey |};
     entity_attributes := [AttributeMetadata "email" (Some (lockKey "email"));
                           AutoGeneratedAttributeMetadata "createdAt" false] |}.

Definition duplicateBuilder (entities : list EntityTarget)
  : Result exn (list EntityMetadata) :=
  Ok [userMetadata; orderMetadata; userMetadataV2].

Definition failedWorld : World := (connect failingBuilder freshWorld).2.

Definition sampleDefinitions (physicalName : string) : option EntityDefinition :=
  if String.eqb physicalName "user" then Some {| definition_target := User |}
  else if String.eqb physicalName "invoice"
  then Some {| definition_target := Invoice |}
  else None.

Definition getUser : TransactionItem := GetItem User (key "u1") None.

Definition deleteInvoice : TransactionItem :=
  DeleteItem Invoice (key "i1") None.

(** Transformers whose update requests carry no [ReturnValues]. *)
Definition bareTransformers : LowOrderTransformers :=
  {| toDynamoGetItem entity primaryKey options :=
       Ok (request entity primaryKey);
     toDynamoPutItem item options :=
       Ok (PutSingle (request (entity_class item) (entity_props item)));
     toDynamoUpdateItem entity primaryKey body options :=
       Ok (Plain (request entity (primaryKey ∪ body)));
     toDynamoDeleteItem entity primaryKey options :=
       Ok (Plain (<["ReturnValues" := JsString "ALL_OLD"]>
                    (request entity primaryKey))) |}.

End MoreExamples.

(** ** The composition of a write transaction, after the collecting phase *)

Module Composition.

Import Transformer.

(** Modelled from the spec: the request executor of section 6, which is not
    among the sources. It performs single-item reads,
    [getItem(key) -> item | not-found], where a read may also fail, and
    all-or-nothing transactional writes,
    [submitTransaction(operations) -> success | conditional-failure
    (which-operation) | other-failure]. *)
Inductive ReadOutcome : Type :=
  | ItemFound (item : JsObject)
  | ItemNotFound
  | ReadFailure.

(** Modelled from the spec: what [submitTransaction] answers (section 6). *)
Inductive SubmitOutcome : Type :=
  | Success
  | ConditionalFailure (whichOperation : nat)
  | OtherFailure.

(** Modelled from the spec: the two entry points of the executor the
    composition of a write transaction uses (section 6). *)
Record RequestExecutor : Type :=
  { getItem : JsObject → ReadOutcome;
    submitTransaction : list TransactWriteItem → SubmitOutcome }.

(** The requests made of the executor, oldest first. *)
Inductive Request : Type :=
  | GetItemRequest (key : JsObject)
  | SubmitTransactionRequest (operations : list TransactWriteItem).

Definition isSubmission (request : Request) : bool :=
  match request with
  | SubmitTransactionRequest _ => true
  | GetItemRequest _ => false
  end.

(** Modelled from the spec: the errors of a composition (section 7), which
    the sources have no class for. A composition-time error is what the
    collecting phase throws; a resolution error is a deferred expansion whose
    read fails or finds no record; the size-limit error is that of a
    transaction of more operations than the store takes; a store error is a
    failure the executor reports. *)
Inductive CompositionError : Type :=
  | CompositionTimeError (err : exn)
  | ResolutionError (loader : LazyTransactionWriteItemListLoader)
                    (outcome : ReadOutcome)
  | SizeLimitError (size maximum : nat)
  | StoreError (outcome : SubmitOutcome).

(** A phase runs against the requests made so far and leaves those it made,
    also when it fails. *)
Definition Composing (A : Type) : Type :=
  list Request → Result CompositionError A * list Request.

#[global] Instance Composing_ret : MRet Composing :=
  fun _ a requests => (Ok a, requests).
#[global] Instance Composing_bind : MBind Composing :=
  fun _ _ k m requests =>
    match m requests with
    | (Ok a, requests') => k a requests'
    | (Throw e, requests') => (Throw e, requests')
    end.

Definition failWith {A} (e : CompositionError) : Composing A :=
  fun requests => (Throw e, requests).

Definition issue (request : Request) : Composing unit :=
  fun requests => (Ok tt, requests ++ [request]).

Section WithStore.

(** The store's maximum item count per transaction, a value neither the
    sources nor the spec give, and the executor. *)
Variable maximum : nat.
Variable executor : RequestExecutor.

Context {transformers : LowOrderTransformers}.

(** Modelled from the spec: the resolution of one deferred expansion
    (sections 3 and 4.4), done by the transaction manager, which is not among
    the sources. It takes exactly one read, of the record under the loader's
    primary key; the loader turns the record read into its operations; a
    read that fails or finds no record is a resolution error. *)
Definition resolve (loader : LazyTransactionWriteItemListLoader)
  : Composing (list TransactWriteItem) :=
  issue (GetItemRequest (primaryKeyAttributes loader));;
  match getItem executor (primaryKeyAttributes loader) with
  | ItemFound item => mret (lazyLoadTransactionWriteItems loader item)
  | outcome => failWith (ResolutionError loader outcome)
  end.

(** Modelled from the spec: the resolving phase (section 4.4). Each pending
    expansion is resolved and its operations are appended; when a read
    fails the whole composition fails. *)
Fixpoint resolveAll (loaders : list LazyTransactionWriteItemListLoader)
  : Composing (list TransactWriteItem) :=
  match loaders with
  | [] => mret []
  | loader :: rest =>
      operations ← resolve loader;
      more ← resolveAll rest;
      mret (operations ++ more)
  end.

(** Modelled from the spec: the composition of a write transaction by the
    transaction manager, which is not among the sources (sections 4.4, 5
    and 6). Collecting is [innerTransformTransactionWriteItems]; resolving
    appends the operations of the pending expansions to the directly
    resolved ones; the finished list is submitted as one batch, unless it
    exceeds the store's maximum item count, which fails with the size-limit
    error before submission. A failure the executor reports is passed on. *)
Definition composeWriteTransaction (transactionItems : list TransactionItem)
  : Composing unit :=
  match innerTransformTransactionWriteItems transactionItems with
  | Throw err => failWith (CompositionTimeError err)
  | Ok collected =>
      resolved ← resolveAll (lazyTransactionWriteItemListLoader collected);
      let operations := transactionItemList collected ++ resolved in
      if decide (maximum < length operations)
      then failWith (SizeLimitError (length operations) maximum)
      else
        issue (SubmitTransactionRequest operations);;
        match submitTransaction executor operations with
        | Success => mret tt
        | outcome => failWith (StoreError outcome)
        end
  end.

End WithStore.

End Composition.

(** More sample data: classes that share the name of [User], and a store. *)

Module Clashes.

Import Transformer Examples Composition.

(** A class named [User] that is declared to no connection. *)
Definition OtherUser : EntityTarget :=
  {| target_name := "User"; target_identity := 4 |}.

(** A second class named [User], declared after the first. *)
Definition AccountUser : EntityTarget :=
  {| target_name := "User"; target_identity := 5 |}.

Definition accountUserMetadata : EntityMetadata :=
  {| target := AccountUser;
     schema := {| primaryKey := orderPrimaryKey |};
     entity_attributes := [AttributeMetadata "login" None] |}.

Definition clashingOptions : ConnectionOptions :=
  {| opt_table := None;
     opt_name := Some "clash";
     opt_entities := [User; AccountUser];
     opt_documentClient := None;
     opt_dynamoQueryItemsImplicitLimit := None |}.

Definition clashingBuilder (entities : list EntityTarget)
  : Result exn (list EntityMetadata) :=
  Ok [userMetadata; accountUserMetadata].

Definition clashingWorld : World :=
  (connect clashingBuilder
     {| self := constructor 3000 clashingOptions; trace := [] |}).2.

(** A store that holds a record under every key and accepts what it is
    sent. *)
Definition sampleExecutor : RequestExecutor :=
  {| getItem key := ItemFound (<["email" := JsString "old@b.c"]> key);
     submitTransaction operations := Success |}.

(** A store without records. *)
Definition emptyExecutor : RequestExecutor :=
  {| getItem key := ItemNotFound;
     submitTransaction operations := Success |}.

End Clashes.

(** ** Facts about the JavaScript primitives *)

Section Primitives.

Lemma Object_keys_lookup {V} (o : gmap string V) (key : string) :
  key ∈ Object_keys o ↔ is_Some (o !! key).
Proof.
  unfold Object_keys. rewrite list_elem_of_fmap. split.
  - intros [[k v] [-> Hin]]. apply elem_of_map_to_list in Hin. by exists v.
  - intros [v Hv]. exists (key, v). split; [done|].
    by apply elem_of_map_to_list.
Qed.

Lemma includes_true (l : list string) (x : string) :
  includes l x = true ↔ x ∈ l.
Proof.
  unfold includes. rewrite existsb_exists, list_elem_of_In. split.
  - intros [y [Hin Heq]]. apply String.eqb_eq in Heq. by subst.
  - intros Hin. exists x. split; [done | apply String.eqb_refl].
Qed.

Lemma some_true {A} (l : list A) (p : A → bool) :
  some l p = true ↔ ∃ x, x ∈ l ∧ p x = true.
Proof.
  unfold some. rewrite existsb_exists.
  split; intros [x [Hin Hp]]; exists x; split; try done;
    by apply list_elem_of_In.
Qed.

(** [new Map(pairs)] holds, under a key, the value of the last pair with
    that key. *)
Lemma new_Map_snoc {V} (pairs : list (string * V)) (kv : string * V) :
  new_Map (pairs ++ [kv]) = <[kv.1 := kv.2]> (new_Map pairs).
Proof. unfold new_Map. by rewrite foldl_app. Qed.

Lemma new_Map_keyed_lookup {V} (keyOf : V → string) (values : list V)
  (key : string) :
  new_Map ((fun v => (keyOf v, v)) <$> values) !! key
  = last (filter (fun v => keyOf v = key) values).
Proof.
  induction values as [|v values IH] using rev_ind.
  - done.
  - rewrite fmap_app. simpl. rewrite new_Map_snoc, filter_app. simpl.
    destruct (decide (keyOf v = key)) as [Heq|Hne].
    + rewrite filter_cons_True, filter_nil by done.
      rewrite last_snoc. subst key. by rewrite lookup_insert_eq.
    + rewrite filter_cons_False, filter_nil, app_nil_r by done.
      by rewrite lookup_insert_ne.
Qed.

Lemma last_filter_Some {A} (P : A → Prop) `{!∀ x, Decision (P x)}
  (l : list A) (x : A) :
  last (filter P l) = Some x → x ∈ l ∧ P x.
Proof.
  intros Hlast. apply last_Some in Hlast as [l' Hl'].
  assert (x ∈ filter P l) as Hin by (rewrite Hl'; set_solver).
  by apply list_elem_of_filter in Hin as [? ?].
Qed.

Lemma last_filter_None {A} (P : A → Prop) `{!∀ x, Decision (P x)}
  (l : list A) :
  last (filter P l) = None ↔ ∀ x, x ∈ l → ¬ P x.
Proof.
  rewrite last_None. split.
  - intros Hnil x Hin HP.
    assert (x ∈ filter P l) as Hx by (by apply list_elem_of_filter).
    rewrite Hnil in Hx. by apply elem_of_nil in Hx.
  - intros Hall. destruct (filter P l) as [|y l'] eqn:Hf; [done|].
    assert (y ∈ filter P l) as Hy by (rewrite Hf; set_solver).
    apply list_elem_of_filter in Hy as [HP Hin]. by destruct (Hall y Hin).
Qed.

End Primitives.

(** ** The registry *)

(** Runs the statements of the connection monad in the goal. *)
Ltac run_M :=
  unfold mbind, M_bind, mret, M_ret, try_catch, this, modify, emit, lift,
    throw;
  simpl.

Section Registry.

Variable buildEntityMetadatas :
  list EntityTarget → Result exn (list EntityMetadata).

Lemma registryOf_lookup (metas : list EntityMetadata) (entityName : string) :
  registryOf metas !! entityName
  = last (filter (fun m => target_name (target m) = entityName) metas).
Proof. apply (new_Map_keyed_lookup (fun m => target_name (target m))). Qed.

(** [connect] on a connected connection: it throws and touches nothing. *)
Lemma connect_connected (w : World) :
  isConnected (self w) = true →
  connect buildEntityMetadatas w = (Throw AlreadyConnected, w).
Proof. intros Hc. unfold connect. run_M. by rewrite Hc. Qed.

(** [connect] on a connection that is not connected, by the outcome of the
    builder. *)
Lemma connect_fresh (w : World) :
  isConnected (self w) = false →
  connect buildEntityMetadatas w =
  let entities := opt_entities (options (self w)) in
  match buildEntityMetadatas entities with
  | Ok metas =>
      let c := set_isConnected true
                 (set_entityMetadatas (registryOf metas) (self w)) in
      (Ok c, {| self := c;
                trace := trace w ++ [BuildEntityMetadatas entities] |})
  | Throw err =>
      (Throw err,
       {| self := self w;
          trace := trace w ++ [BuildEntityMetadatas entities;
                               DestroySelf (name (self w))] |})
  end.
Proof.
  intros Hc. unfold connect. run_M. rewrite Hc.
  unfold buildMetadatas. run_M.
  destruct (buildEntityMetadatas _) as [metas|err]; simpl; [done|].
  unfold destroySelf. run_M. by rewrite <- app_assoc.
Qed.

Lemma connect_Ok_inv (w w1 : World) (c1 : Connection) :
  connect buildEntityMetadatas w = (Ok c1, w1) →
  ∃ metas,
    isConnected (self w) = false
    ∧ buildEntityMetadatas (opt_entities (options (self w))) = Ok metas
    ∧ c1 = self w1
    ∧ self w1 = set_isConnected true
                  (set_entityMetadatas (registryOf metas) (self w))
    ∧ trace w1 = trace w
                 ++ [BuildEntityMetadatas (opt_entities (options (self w)))].
Proof.
  intros Hconn. destruct (isConnected (self w)) eqn:Hc.
  - by rewrite connect_connected in Hconn.
  - rewrite connect_fresh in Hconn by done. simpl in Hconn.
    destruct (buildEntityMetadatas _) as [metas|err]; [|done].
    inversion Hconn; subst. by exists metas.
Qed.

End Registry.

Section Lookup.

Implicit Types (c : Connection) (entityClass : EntityTarget).

(** The lookups on a connection whose registry has been installed. *)
Lemma getEntityByTarget_lookup c metas entityClass :
  _entityMetadatas c = Some metas →
  getEntityByTarget c entityClass =
  match metas !! target_name entityClass with
  | Some metadata => Ok metadata
  | None => Throw (NoSuchEntity (target_name entityClass))
  end.
Proof. intros Hm. unfold getEntityByTarget. by rewrite Hm. Qed.

Lemma declared_lookup (metas : list EntityMetadata) entityClass :
  declared metas entityClass
  ↔ is_Some (registryOf metas !! target_name entityClass).
Proof.
  rewrite registryOf_lookup. split.
  - intros [m [Hin Hname]].
    destruct (last (filter _ metas)) as [m'|] eqn:Hlast; [by exists m'|].
    rewrite last_filter_None in Hlast. by destruct (Hlast m Hin).
  - intros [m Hlast]. apply last_filter_Some in Hlast as [Hin Hname].
    by exists m.
Qed.

Lemma isUsedForPrimaryKey_true (primaryKey : DynamoEntitySchemaPrimaryKey)
  (attributeName : string) :
  isUsedForPrimaryKey primaryKey attributeName = true
  ↔ usedInPrimaryKey primaryKey attributeName.
Proof.
  unfold isUsedForPrimaryKey, usedInPrimaryKey. cbv zeta.
  set (interpolations := default ∅ _). rewrite some_true. split.
  - intros [key [Hkey Hinc]].
    destruct (interpolations !! key) as [pattern|] eqn:Hlook; [|done].
    exists key, pattern. split; [done|]. by apply includes_true.
  - intros [key [pattern [Hlook Hin]]]. exists key. split.
    + apply Object_keys_lookup. by exists pattern.
    + rewrite Hlook. by apply includes_true.
Qed.

End Lookup.

(** ** Claims about the connection *)

Section ConnectionClaims.

Import Examples.

Implicit Types (c : Connection) (entityClass : EntityTarget) (w : World).

Lemma sample_connect :
  connect sampleBuilder freshWorld = (Ok (self connectedWorld), connectedWorld).
Proof. vm_compute. reflexivity. Defined.

Lemma sample_build :
  sampleBuilder (opt_entities (options (self freshWorld)))
  = Ok [userMetadata; orderMetadata].
Proof. reflexivity. Defined.

(** Closes [¬ declared metas entityClass] on a literal list of metadata. *)
Ltac refute_declared :=
  let m := fresh "m" in
  let Hin := fresh "Hin" in
  let Hname := fresh "Hname" in
  intros [m [Hin Hname]]; vm_compute in Hname;
  repeat (apply elem_of_cons in Hin as [->|Hin]; [discriminate|]);
  by apply elem_of_nil in Hin.

Lemma filter_sublist {A} (p : A → bool) (l : list A) :
  sublist (List.filter p l) l.
Proof.
  induction l as [|x l IH]; simpl; [constructor|].
  destruct (p x); by constructor.
Qed.

(** C6. [isUsedForPrimaryKey(primaryKey, attributeName)] is true exactly when
    the array of some key of the schema's interpolations holds
    [attributeName]; it is false for every attribute name when the schema has
    no interpolations, be the property absent or the empty object. *)
Theorem isUsedForPrimaryKey_iff_referenced
  (primaryKey : DynamoEntitySchemaPrimaryKey) (attributeName : string) :
  (isUsedForPrimaryKey primaryKey attributeName = true
   ↔ ∃ key currInterpolation,
       default ∅ (_interpolations (metadata primaryKey)) !! key
         = Some currInterpolation
       ∧ attributeName ∈ currInterpolation)
  ∧ isUsedForPrimaryKey {| metadata := {| _interpolations := None |} |}
      attributeName = false
  ∧ isUsedForPrimaryKey {| metadata := {| _interpolations := Some ∅ |} |}
      attributeName = false.
Proof.
  split; [apply isUsedForPrimaryKey_true|]. split; reflexivity.
Qed.

(** C3. For an entity registered in the connection,
    [getUniqueAttributesForEntity] returns, in the order of the entity's
    attributes, exactly the attributes that have [unique] set and whose name
    no key of the entity's primary-key schema is interpolated from; an
    attribute that takes part in the primary key is never in the result. *)
Theorem getUniqueAttributesForEntity_exact c
  (metas : gmap string EntityMetadata) (entityMetadata : EntityMetadata)
  entityClass :
  _entityMetadatas c = Some metas →
  metas !! target_name entityClass = Some entityMetadata →
  ∃ uniques,
    getUniqueAttributesForEntity c entityClass = Ok uniques
    ∧ sublist uniques (entity_attributes entityMetadata)
    ∧ (∀ attr,
         attr ∈ uniques
         ↔ attr ∈ entity_attributes entityMetadata
           ∧ is_Some (attr_unique attr)
           ∧ ¬ usedInPrimaryKey (primaryKey (schema entityMetadata))
                                (attr_name attr))
    ∧ (∀ attr,
         usedInPrimaryKey (primaryKey (schema entityMetadata)) (attr_name attr) →
         attr ∉ uniques).
Proof.
  intros Hmetas Hlook.
  unfold getUniqueAttributesForEntity, getEntityByTarget,
    getAttributesForEntity.
  rewrite Hmetas, Hlook. simpl. eexists. split; [reflexivity|].
  assert (∀ attr,
    attr ∈ List.filter
      (fun attr =>
         bool_decide (is_Some (attr_unique attr))
         && negb (Helpers.isUsedForPrimaryKey
                    (primaryKey (schema entityMetadata)) (attr_name attr)))
      (entity_attributes entityMetadata)
    ↔ attr ∈ entity_attributes entityMetadata
      ∧ is_Some (attr_unique attr)
      ∧ ¬ usedInPrimaryKey (primaryKey (schema entityMetadata))
                           (attr_name attr)) as Hmem.
  { intros attr. rewrite list_elem_of_In, filter_In, <- list_elem_of_In.
    rewrite andb_true_iff, bool_decide_eq_true, negb_true_iff.
    unfold Helpers.isUsedForPrimaryKey.
    rewrite <- isUsedForPrimaryKey_true, not_true_iff_false. tauto. }
  split; [apply filter_sublist|]. split; [exact Hmem|].
  intros attr Hused Hin. apply Hmem in Hin. tauto.
Qed.

Lemma getUniqueAttributesForEntity_exact_witness :
  ∃ uniques,
    getUniqueAttributesForEntity (self connectedWorld) User = Ok uniques
    ∧ sublist uniques userAttributes
    ∧ (∀ attr,
         attr ∈ uniques
         ↔ attr ∈ userAttributes
           ∧ is_Some (attr_unique attr)
           ∧ ¬ usedInPrimaryKey userPrimaryKey (attr_name attr))
    ∧ (∀ attr,
         usedInPrimaryKey userPrimaryKey (attr_name attr) → attr ∉ uniques).
Proof.
  apply (getUniqueAttributesForEntity_exact (self connectedWorld)
           (registryOf [userMetadata; orderMetadata]) userMetadata User);
    vm_compute; reflexivity.
Defined.

(** C4. A second [connect] on a connection whose first [connect] succeeded
    throws the already-connected error and leaves the connection and the
    trace of calls as the first call left them: the builder is not called
    again and the registry is the one the first call installed. *)
Theorem connect_twice_rejected
  (buildEntityMetadatas : list EntityTarget → Result exn (list EntityMetadata))
  w (c1 : Connection) (w1 : World) :
  connect buildEntityMetadatas w = (Ok c1, w1) →
  connect buildEntityMetadatas w1 = (Throw AlreadyConnected, w1)
  ∧ (∀ r w2,
       connect buildEntityMetadatas w1 = (r, w2) →
       trace w2 = trace w1
       ∧ _entityMetadatas (self w2) = _entityMetadatas (self w1)
       ∧ isConnected (self w2) = true)
  ∧ ∃ metas,
      buildEntityMetadatas (opt_entities (options (self w))) = Ok metas
      ∧ _entityMetadatas (self w1) = Some (registryOf metas)
      ∧ trace w1 = trace w
                   ++ [BuildEntityMetadatas (opt_entities (options (self w)))].
Proof.
  intros Hfirst.
  destruct (connect_Ok_inv _ _ _ _ Hfirst)
    as [metas (Hfresh & Hbuild & -> & Hself & Htrace)].
  assert (isConnected (self w1) = true) as Hconn by (by rewrite Hself).
  pose proof (connect_connected buildEntityMetadatas w1 Hconn) as Hsecond.
  split; [exact Hsecond|]. split.
  - intros r w2 Hrun. rewrite Hsecond in Hrun. by inversion Hrun; subst.
  - exists metas. by rewrite Hself.
Qed.

Lemma connect_twice_rejected_witness :
  connect sampleBuilder freshWorld = (Ok (self connectedWorld), connectedWorld)
  ∧ connect sampleBuilder connectedWorld
    = (Throw AlreadyConnected, connectedWorld).
Proof.
  pose proof sample_connect as Hfirst. split; [exact Hfirst|].
  exact (proj1 (connect_twice_rejected sampleBuilder freshWorld
                  (self connectedWorld) connectedWorld Hfirst)).
Defined.

(** C5. When the metadata builder throws inside [connect], the [destroySelf]
    callback is invoked with the connection's name, [connect] throws the
    builder's error itself, and the connection is left as it was: not
    connected, its registry untouched. *)
Theorem connect_build_failure
  (buildEntityMetadatas : list EntityTarget → Result exn (list EntityMetadata))
  w (err : exn) :
  isConnected (self w) = false →
  buildEntityMetadatas (opt_entities (options (self w))) = Throw err →
  ∃ w',
    connect buildEntityMetadatas w = (Throw err, w')
    ∧ trace w' = trace w
                 ++ [BuildEntityMetadatas (opt_entities (options (self w)));
                     DestroySelf (name (self w))]
    ∧ self w' = self w
    ∧ isConnected (self w') = false.
Proof.
  intros Hfresh Hbuild. rewrite connect_fresh by done. simpl.
  rewrite Hbuild. eexists. split; [reflexivity|]. by simpl.
Qed.

Lemma connect_build_failure_witness :
  ∃ w',
    connect failingBuilder freshWorld
    = (Throw (Raised "invalid key template"), w')
    ∧ trace w' = [BuildEntityMetadatas [User; Order]; DestroySelf "default"]
    ∧ self w' = self freshWorld
    ∧ isConnected (self w') = false.
Proof.
  apply (connect_build_failure failingBuilder freshWorld
           (Raised "invalid key template")); reflexivity.
Defined.

(** C7, amended. On a connection whose [connect] succeeded,
    [getEntityByTarget] looks a class up by its name: it throws the
    no-such-entity error for every class whose name is the name of no
    declared class, and for a class whose name is that of a declared class it
    returns the metadata registered under the name, one of those the builder
    returned (the last of that name). In any state of the connection what it
    returns is an entry of the registry, never a stand-in. *)
Theorem getEntityByTarget_registered_or_throws
  (buildEntityMetadatas : list EntityTarget → Result exn (list EntityMetadata))
  w (c1 : Connection) (w1 : World) (metas : list EntityMetadata) entityClass :
  connect buildEntityMetadatas w = (Ok c1, w1) →
  buildEntityMetadatas (opt_entities (options (self w))) = Ok metas →
  (¬ declared metas entityClass →
   getEntityByTarget (self w1) entityClass
   = Throw (NoSuchEntity (target_name entityClass)))
  ∧ (declared metas entityClass →
     ∃ entityMetadata,
       getEntityByTarget (self w1) entityClass = Ok entityMetadata
       ∧ entityMetadata ∈ metas
       ∧ target_name (target entityMetadata) = target_name entityClass
       ∧ last (filter (fun m => target_name (target m)
                                = target_name entityClass) metas)
         = Some entityMetadata)
  ∧ (∀ c entityMetadata,
       getEntityByTarget c entityClass = Ok entityMetadata →
       ∃ registry,
         _entityMetadatas c = Some registry
         ∧ registry !! target_name entityClass = Some entityMetadata).
Proof.
  intros Hfirst Hbuild.
  destruct (connect_Ok_inv _ _ _ _ Hfirst)
    as [metas' (_ & Hbuild' & _ & Hself & _)].
  rewrite Hbuild in Hbuild'. injection Hbuild' as <-.
  assert (_entityMetadatas (self w1) = Some (registryOf metas)) as Hreg
    by (by rewrite Hself).
  rewrite (getEntityByTarget_lookup _ _ _ Hreg).
  split; [|split].
  - intros Hundeclared.
    destruct (registryOf metas !! target_name entityClass) as [m|] eqn:Hlook;
      [|done].
    destruct Hundeclared. apply declared_lookup. by exists m.
  - intros Hdeclared. apply declared_lookup in Hdeclared as [m Hlook].
    exists m. rewrite Hlook. split; [done|].
    rewrite registryOf_lookup in Hlook.
    destruct (last_filter_Some _ _ _ Hlook) as [Hin Hname]. done.
  - intros c m. unfold getEntityByTarget.
    destruct (_entityMetadatas c) as [registry|]; [|done].
    destruct (registry !! target_name entityClass) as [m'|] eqn:Hlook; [|done].
    intros [= <-]. by exists registry.
Qed.

Lemma getEntityByTarget_registered_or_throws_witness :
  getEntityByTarget (self connectedWorld) Invoice
  = Throw (NoSuchEntity "Invoice")
  ∧ getEntityByTarget (self connectedWorld) User = Ok userMetadata.
Proof.
  pose proof sample_connect as Hfirst. pose proof sample_build as Hbuild.
  split.
  - apply (proj1 (getEntityByTarget_registered_or_throws sampleBuilder
                    freshWorld _ connectedWorld _ Invoice Hfirst Hbuild)).
    refute_declared.
  - destruct (proj1 (proj2 (getEntityByTarget_registered_or_throws
                              sampleBuilder freshWorld _ connectedWorld _ User
                              Hfirst Hbuild)))
      as [m (Hget & _ & _ & Hlast)].
    + exists userMetadata. split; [set_solver|reflexivity].
    + rewrite Hget. f_equal.
      assert (Some m = Some userMetadata) as Heq
        by (rewrite <- Hlast; vm_compute; reflexivity).
      by injection Heq.
Defined.



End ConnectionClaims.

(** ** The reductions of the transformer *)

Section Reductions.

Import Transformer Composer.

Context {transformers : LowOrderTransformers}.

Lemma reduce_app {A B} (callback : B → A → Result exn B) (l1 l2 : list A)
  (initial : B) :
  reduce callback (l1 ++ l2) initial
  = (acc ← reduce callback l1 initial; reduce callback l2 acc).
Proof.
  revert initial. induction l1 as [|x l1 IH]; intros initial; simpl.
  - done.
  - destruct (callback initial x) as [acc|err]; simpl; [apply IH|done].
Qed.

(** The callback of the write reduction, by the result of the item. *)
Lemma writeCallback_absorb (acc : WriteAcc) (transactionItem : TransactionItem) :
  writeCallback acc transactionItem
  = (r ← transformItem transactionItem; mret (absorb r acc)).
Proof.
  destruct acc as [ops loaders].
  destruct transactionItem as [item options|item pk body options
                              |item pk options|item pk options|shape];
    simpl; try done.
  - destruct (toDynamoPutItem item options) as [[input|items]|err]; simpl;
      unfold push_item, absorb; simpl; by rewrite ?app_nil_r.
  - destruct (toDynamoUpdateItem item pk body options) as [[input|loader]|err];
      simpl; unfold push_item, push_lazy, absorb; simpl;
      by rewrite ?app_nil_r.
  - destruct (toDynamoDeleteItem item pk options) as [[input|loader]|err];
      simpl; unfold push_item, push_lazy, absorb; simpl;
      by rewrite ?app_nil_r.
Qed.

Lemma reduce_writeCallback (transactionItems : list TransactionItem)
  (acc : WriteAcc) :
  reduce writeCallback transactionItems acc
  = (rs ← transformAll transactionItems;
     mret {| transactionItemList :=
               transactionItemList acc ++ concat (operationsOf <$> rs);
             lazyTransactionWriteItemListLoader :=
               lazyTransactionWriteItemListLoader acc
               ++ concat (pendingOf <$> rs) |}).
Proof.
  revert acc. induction transactionItems as [|item rest IH]; intros acc; simpl.
  - destruct acc. simpl. by rewrite !app_nil_r.
  - rewrite writeCallback_absorb.
    destruct (transformItem item) as [r|err]; simpl; [|done].
    rewrite IH. destruct (transformAll rest) as [rs|err]; simpl; [|done].
    by rewrite <- !app_assoc.
Qed.

Lemma innerTransformTransactionWriteItems_collect
  (transactionItems : list TransactionItem) :
  innerTransformTransactionWriteItems transactionItems
  = collect transactionItems.
Proof.
  unfold innerTransformTransactionWriteItems, collect.
  by rewrite reduce_writeCallback.
Qed.

Lemma transformAll_Ok (transactionItems : list TransactionItem)
  (rs : list ItemResult) :
  transformAll transactionItems = Ok rs
  ↔ Forall2 (fun item r => transformItem item = Ok r) transactionItems rs.
Proof.
  revert rs. induction transactionItems as [|item rest IH]; intros rs; simpl.
  - split.
    + intros [= <-]. constructor.
    + intros Hall. by inversion Hall.
  - split.
    + destruct (transformItem item) as [r|err] eqn:Hitem; simpl; [|done].
      destruct (transformAll rest) as [rs'|err]; simpl; [|done].
      intros [= <-]. constructor; [done|]. by apply IH.
    + intros Hall. inversion Hall as [|? r ? rs' Hr Hrs]; subst.
      apply IH in Hrs. by rewrite Hr, Hrs.
Qed.

End Reductions.

(** ** Claims about the transformer *)

Section TransformerClaims.

Import Transformer Composer Examples.

(** The entry points write the record [Before], and the record [After] only
    when the reduction returned. *)
Lemma toDynamoWriteTransactionItems_log {transformers : LowOrderTransformers}
  (items : list TransactionItem) (log : list LogEntry) :
  toDynamoWriteTransactionItems items log =
  match innerTransformTransactionWriteItems items with
  | Ok transformed =>
      (Ok transformed,
       log ++ [logEntry TRANSACTION_WRITE Before (LoggedItems items);
               logEntry TRANSACTION_WRITE After (LoggedWrite transformed)])
  | Throw err =>
      (Throw err,
       log ++ [logEntry TRANSACTION_WRITE Before (LoggedItems items)])
  end.
Proof.
  unfold toDynamoWriteTransactionItems, mbind, Logging_bind,
    logTransformTransaction, run. simpl.
  destruct (innerTransformTransactionWriteItems items); simpl; [|done].
  by rewrite <- app_assoc.
Qed.

Lemma toDynamoReadTransactionItems_log {transformers : LowOrderTransformers}
  (items : list TransactionItem) (log : list LogEntry) :
  toDynamoReadTransactionItems items log =
  match innerTransformTransactionReadItems items with
  | Ok transformed =>
      (Ok transformed,
       log ++ [logEntry TRANSACTION_READ Before (LoggedItems items);
               logEntry TRANSACTION_READ After (LoggedRead transformed)])
  | Throw err =>
      (Throw err,
       log ++ [logEntry TRANSACTION_READ Before (LoggedItems items)])
  end.
Proof.
  unfold toDynamoReadTransactionItems, mbind, Logging_bind,
    logTransformTransaction, run. simpl.
  destruct (innerTransformTransactionReadItems items); simpl; [|done].
  by rewrite <- app_assoc.
Qed.

Lemma write_wrong_kind {transformers : LowOrderTransformers}
  (before after : list TransactionItem) (bad : TransactionItem) :
  isTransactionAddCreateItem bad || isTransactionAddUpdateItem bad
  || isTransactionAddDeleteItem bad = false →
  innerTransformTransactionWriteItems (before ++ bad :: after)
  = (_ ← innerTransformTransactionWriteItems before;
     Throw (InvalidTransactionWriteItemError bad)).
Proof.
  intros Hkind. unfold innerTransformTransactionWriteItems.
  rewrite reduce_app.
  destruct (reduce writeCallback before _) as [acc|err]; [|done].
  simpl. by destruct bad.
Qed.

Lemma read_wrong_kind {transformers : LowOrderTransformers}
  (before after : list TransactionItem) (bad : TransactionItem) :
  isTransactionAddGetItem bad = false →
  innerTransformTransactionReadItems (before ++ bad :: after)
  = (_ ← innerTransformTransactionReadItems before;
     Throw (InvalidTransactionReadItemError bad)).
Proof.
  intros Hkind. unfold innerTransformTransactionReadItems.
  rewrite reduce_app.
  destruct (reduce readCallback before _) as [acc|err]; [|done].
  simpl. by destruct bad.
Qed.

(** C1. In a write transaction the first item that is not a create, update
    or delete item (a get item, say) makes the transformation throw
    [InvalidTransactionWriteItemError] for that item, whatever follows it; in
    a read transaction the first item that is not a get item makes it throw
    [InvalidTransactionReadItemError]. The entry points return the exception
    after the one log record written before the transformation: the code is
    synchronous and calls nothing else. A transaction that holds an item of
    the wrong kind anywhere is never transformed. *)
Theorem wrong_kind_rejected {transformers : LowOrderTransformers}
  (before after : list TransactionItem) (bad : TransactionItem)
  (log : list LogEntry) :
  (isTransactionAddCreateItem bad || isTransactionAddUpdateItem bad
   || isTransactionAddDeleteItem bad = false →
   is_Ok (innerTransformTransactionWriteItems before) = true →
   innerTransformTransactionWriteItems (before ++ bad :: after)
   = Throw (InvalidTransactionWriteItemError bad)
   ∧ toDynamoWriteTransactionItems (before ++ bad :: after) log
     = (Throw (InvalidTransactionWriteItemError bad),
        log ++ [logEntry TRANSACTION_WRITE Before
                  (LoggedItems (before ++ bad :: after))]))
  ∧ (isTransactionAddGetItem bad = false →
     is_Ok (innerTransformTransactionReadItems before) = true →
     innerTransformTransactionReadItems (before ++ bad :: after)
     = Throw (InvalidTransactionReadItemError bad)
     ∧ toDynamoReadTransactionItems (before ++ bad :: after) log
       = (Throw (InvalidTransactionReadItemError bad),
          log ++ [logEntry TRANSACTION_READ Before
                    (LoggedItems (before ++ bad :: after))]))
  ∧ (∀ item primaryKey options,
       is_Ok (innerTransformTransactionWriteItems before) = true →
       innerTransformTransactionWriteItems
         (before ++ GetItem item primaryKey options :: after)
       = Throw (InvalidTransactionWriteItemError
                  (GetItem item primaryKey options)))
  ∧ (isTransactionAddCreateItem bad || isTransactionAddUpdateItem bad
     || isTransactionAddDeleteItem bad = false →
     is_Ok (innerTransformTransactionWriteItems (before ++ bad :: after))
     = false)
  ∧ (isTransactionAddGetItem bad = false →
     is_Ok (innerTransformTransactionReadItems (before ++ bad :: after))
     = false).
Proof.
  split; [|split; [|split; [|split]]].
  - intros Hkind Hbefore.
    rewrite toDynamoWriteTransactionItems_log, write_wrong_kind by done.
    by destruct (innerTransformTransactionWriteItems before).
  - intros Hkind Hbefore.
    rewrite toDynamoReadTransactionItems_log, read_wrong_kind by done.
    by destruct (innerTransformTransactionReadItems before).
  - intros item primaryKey options Hbefore.
    rewrite write_wrong_kind by done.
    by destruct (innerTransformTransactionWriteItems before).
  - intros Hkind. rewrite write_wrong_kind by done.
    by destruct (innerTransformTransactionWriteItems before).
  - intros Hkind. rewrite read_wrong_kind by done.
    by destruct (innerTransformTransactionReadItems before).
Qed.

Lemma wrong_kind_rejected_witness :
  innerTransformTransactionWriteItems (transformers := sampleTransformers)
    ([createOrder; updateOrder] ++ getOrder :: [deleteOrder])
  = Throw (InvalidTransactionWriteItemError getOrder)
  ∧ innerTransformTransactionReadItems (transformers := sampleTransformers)
      ([getOrder] ++ createOrder :: [getOrder])
    = Throw (InvalidTransactionReadItemError createOrder).
Proof.
  split.
  - apply (proj1 (wrong_kind_rejected (transformers := sampleTransformers)
                    [createOrder; updateOrder] [deleteOrder] getOrder []));
      reflexivity.
  - apply (proj1 (proj2 (wrong_kind_rejected
                           (transformers := sampleTransformers)
                           [getOrder] [getOrder] createOrder [])));
      reflexivity.
Defined.

(** C2. The transformation of a list of write items is the collection of the
    item results: every item has one result, either resolved operations (the
    single operation or the list its transformer returned) or a pending
    loader; the operation list is the operations of the resolved results in
    the order of the items, each item's operations side by side, and the
    pending queue is the loaders of the deferred results, which add nothing
    to the operation list. *)
Theorem write_items_classified {transformers : LowOrderTransformers}
  (transactionItems : list TransactionItem) :
  innerTransformTransactionWriteItems transactionItems
  = collect transactionItems
  ∧ (∀ acc,
       innerTransformTransactionWriteItems transactionItems = Ok acc →
       ∃ rs,
         Forall2 (fun item r => transformItem item = Ok r) transactionItems rs
         ∧ transactionItemList acc = concat (operationsOf <$> rs)
         ∧ lazyTransactionWriteItemListLoader acc = concat (pendingOf <$> rs)
         ∧ Forall (fun r =>
                     (∃ operations, r = Resolved operations
                                    ∧ operationsOf r = operations
                                    ∧ pendingOf r = [])
                     ∨ (∃ loader, r = Pending loader
                                  ∧ operationsOf r = []
                                  ∧ pendingOf r = [loader])) rs).
Proof.
  split; [apply innerTransformTransactionWriteItems_collect|].
  intros acc. rewrite innerTransformTransactionWriteItems_collect.
  unfold collect.
  destruct (transformAll transactionItems) as [rs|err] eqn:Hall; simpl;
    [|done].
  intros [= <-]. exists rs. simpl. split; [by apply transformAll_Ok|].
  split; [done|]. split; [done|].
  apply Forall_forall. intros [operations|loader] _; [left|right]; eauto.
Qed.

Lemma write_items_classified_witness :
  ∃ put lock update remove,
    innerTransformTransactionWriteItems (transformers := sampleTransformers)
      [deleteUser; createUser; updateUserEmail; updateOrder; deleteOrder]
    = Ok {| transactionItemList := [Put put; Put lock; Update update;
                                    Delete remove];
            lazyTransactionWriteItemListLoader :=
              [sampleLoader User (key "u2"); sampleLoader User (key "u1")] |}.
Proof.
  do 4 eexists.
  rewrite (proj1 (write_items_classified (transformers := sampleTransformers)
                    [deleteUser; createUser; updateUserEmail; updateOrder;
                     deleteOrder])).
  reflexivity.
Defined.

(** C10. An update item whose transformer returns a plain update input (no
    deferred expansion) appends one [Update] operation to the transaction
    list: the transformer's output without its [ReturnValues] property, every
    other property as the transformer set it. *)
Theorem update_drops_ReturnValues {transformers : LowOrderTransformers}
  (before : list TransactionItem) (acc : WriteAcc)
  (item : EntityTarget) (primaryKey body : JsObject)
  (options : option JsObject) (dynamoUpdateItemInput : UpdateItemInput) :
  innerTransformTransactionWriteItems before = Ok acc →
  toDynamoUpdateItem item primaryKey body options
  = Ok (Plain dynamoUpdateItemInput) →
  ∃ update : UpdateItemInput,
    innerTransformTransactionWriteItems
      (before ++ [UpdateItem item primaryKey body options])
    = Ok {| transactionItemList := transactionItemList acc ++ [Update update];
            lazyTransactionWriteItemListLoader :=
              lazyTransactionWriteItemListLoader acc |}
    ∧ update !! "ReturnValues" = None
    ∧ (∀ property, property ≠ "ReturnValues" →
                   update !! property = dynamoUpdateItemInput !! property)
    ∧ update = delete "ReturnValues" dynamoUpdateItemInput.
Proof.
  intros Hbefore Hupdate.
  exists (dropProp dynamoUpdateItemInput "ReturnValues").
  unfold innerTransformTransactionWriteItems in *.
  rewrite reduce_app, Hbefore. simpl. rewrite Hupdate. simpl.
  split; [done|]. unfold dropProp. split; [apply lookup_delete_eq|].
  split; [|done]. intros property Hne. by apply lookup_delete_ne.
Qed.

Lemma update_drops_ReturnValues_witness :
  ∃ update : UpdateItemInput,
    innerTransformTransactionWriteItems (transformers := sampleTransformers)
      ([createOrder] ++ [updateOrder])
    = Ok {| transactionItemList :=
              [Put (request Order (key "o1"))] ++ [Update update];
            lazyTransactionWriteItemListLoader := [] |}
    ∧ update !! "ReturnValues" = None
    ∧ (∀ property, property ≠ "ReturnValues" →
         update !! property
         = (<["ReturnValues" := JsString "ALL_NEW"]>
              (request Order (key "o1" ∪ {["total" := JsNumber 7]})))
           !! property)
    ∧ update = delete "ReturnValues"
                 (<["ReturnValues" := JsString "ALL_NEW"]>
                    (request Order (key "o1" ∪ {["total" := JsNumber 7]}))).
Proof.
  apply (update_drops_ReturnValues (transformers := sampleTransformers)
           [createOrder]
           {| transactionItemList := [Put (request Order (key "o1"))];
              lazyTransactionWriteItemListLoader := [] |}
           Order (key "o1") {["total" := JsNumber 7]} None);
    reflexivity.
Defined.

End TransformerClaims.

(** ** Classes that share a name *)

Section NamesakeClasses.

Import Examples Clashes.

(** C7, as the claim has it, fails. A class named [User] that was never
    declared to the connection is looked up without an error, to the
    metadata of the declared class [User]; and of two declared classes named
    [User] the first is looked up to the metadata of the second. *)
Lemma getEntityByTarget_confuses_namesakes :
  (connect sampleBuilder freshWorld = (Ok (self connectedWorld), connectedWorld)
   ∧ sampleBuilder (opt_entities (options (self freshWorld)))
     = Ok [userMetadata; orderMetadata]
   ∧ (OtherUser ∉ opt_entities (options (self freshWorld)))
   ∧ ¬ declaredClass [userMetadata; orderMetadata] OtherUser
   ∧ getEntityByTarget (self connectedWorld) OtherUser = Ok userMetadata)
  ∧ (connect clashingBuilder
       {| self := constructor 3000 clashingOptions; trace := [] |}
     = (Ok (self clashingWorld), clashingWorld)
     ∧ clashingBuilder (opt_entities clashingOptions)
       = Ok [userMetadata; accountUserMetadata]
     ∧ declaredClass [userMetadata; accountUserMetadata] User
     ∧ getEntityByTarget (self clashingWorld) User = Ok accountUserMetadata
     ∧ target accountUserMetadata ≠ User
     ∧ accountUserMetadata ≠ userMetadata).
Proof.
  split.
  - split; [vm_compute; reflexivity|]. split; [reflexivity|]. split; [|split].
    + intros Hin.
      repeat (apply elem_of_cons in Hin as [Heq|Hin]; [discriminate Heq|]).
      by apply elem_of_nil in Hin.
    + intros [m [Hin Htarget]].
      repeat (apply elem_of_cons in Hin as [->|Hin]; [discriminate Htarget|]).
      by apply elem_of_nil in Hin.
    + vm_compute. reflexivity.
  - split; [vm_compute; reflexivity|]. split; [reflexivity|].
    split; [|split; [|split]].
    + exists userMetadata. split; [by left|reflexivity].
    + vm_compute. reflexivity.
    + discriminate.
    + discriminate.
Qed.

End NamesakeClasses.

(** ** The composition of a write transaction *)

Section CompositionClaims.

Import Transformer Examples Clashes Composition.

Variable maximum : nat.
Variable executor : RequestExecutor.

Context {transformers : LowOrderTransformers}.

(** Resolving reads and never submits. *)
Lemma resolveAll_requests (loaders : list LazyTransactionWriteItemListLoader)
  (requests requests' : list Request)
  (r : Result CompositionError (list TransactWriteItem)) :
  resolveAll executor loaders requests = (r, requests') →
  ∃ reads,
    requests' = requests ++ reads
    ∧ Forall (fun request => isSubmission request = false) reads.
Proof.
  revert requests requests' r.
  induction loaders as [|loader rest IH]; intros requests requests' r; simpl.
  - intros [= <- <-]. exists []. by rewrite app_nil_r.
  - unfold resolve, mbind, Composing_bind, issue, failWith. simpl.
    destruct (getItem executor (primaryKeyAttributes loader)) as [item| |];
      simpl.
    + destruct (resolveAll executor rest _) as [[more|err] requests1] eqn:Hrest;
        simpl; intros [= <- <-];
        destruct (IH _ _ _ Hrest) as (reads & -> & Hreads);
        exists (GetItemRequest (primaryKeyAttributes loader) :: reads);
        (split; [by rewrite <- app_assoc|by constructor]).
    + intros [= <- <-]. eexists. split; [done|]. by repeat constructor.
    + intros [= <- <-]. eexists. split; [done|]. by repeat constructor.
Qed.

Lemma resolveAll_Ok_length (loaders : list LazyTransactionWriteItemListLoader)
  (requests requests' : list Request) (resolved : list TransactWriteItem) :
  resolveAll executor loaders requests = (Ok resolved, requests') →
  length requests' = length requests + length loaders.
Proof.
  revert requests requests' resolved.
  induction loaders as [|loader rest IH]; intros requests requests' resolved;
    simpl.
  - intros [= <- <-]. lia.
  - unfold resolve, mbind, Composing_bind, issue, failWith. simpl.
    destruct (getItem executor (primaryKeyAttributes loader)) as [item| |];
      simpl; try done.
    destruct (resolveAll executor rest _) as [[more|err] requests1] eqn:Hrest;
      simpl; intros [= <- <-].
    apply IH in Hrest. rewrite Hrest, length_app. simpl. lia.
Qed.

(** C8. A write transaction whose operation list exceeds the store's maximum
    item count is not submitted: when the collecting phase returns and the
    pending expansions resolve, a finished list longer than the maximum
    fails the composition with the size-limit error, after the reads of the
    resolution and without a submission; when the directly resolved
    operations alone exceed the maximum the composition fails whatever the
    reads give, and nothing is submitted. A finished list within the maximum
    is submitted once, whole. *)
Theorem oversized_transaction_rejected
  (transactionItems : list TransactionItem) (collected : WriteAcc) :
  innerTransformTransactionWriteItems transactionItems = Ok collected →
  (∀ resolved requests,
     resolveAll executor (lazyTransactionWriteItemListLoader collected) []
     = (Ok resolved, requests) →
     maximum < length (transactionItemList collected ++ resolved) →
     composeWriteTransaction maximum executor transactionItems []
     = (Throw (SizeLimitError
                 (length (transactionItemList collected ++ resolved)) maximum),
        requests)
     ∧ Forall (fun request => isSubmission request = false) requests
     ∧ length requests
       = length (lazyTransactionWriteItemListLoader collected))
  ∧ (maximum < length (transactionItemList collected) →
     ∀ r requests,
       composeWriteTransaction maximum executor transactionItems []
       = (r, requests) →
       is_Ok r = false
       ∧ Forall (fun request => isSubmission request = false) requests)
  ∧ (∀ resolved requests,
       resolveAll executor (lazyTransactionWriteItemListLoader collected) []
       = (Ok resolved, requests) →
       length (transactionItemList collected ++ resolved) ≤ maximum →
       composeWriteTransaction maximum executor transactionItems []
       = (match submitTransaction executor
                  (transactionItemList collected ++ resolved) with
          | Success => Ok tt
          | outcome => Throw (StoreError outcome)
          end,
          requests
          ++ [SubmitTransactionRequest
                (transactionItemList collected ++ resolved)])).
Proof.
  intros Hcollected. unfold composeWriteTransaction. rewrite Hcollected.
  unfold mbind, Composing_bind. split; [|split].
  - intros resolved requests Hresolved Hover. rewrite Hresolved.
    rewrite decide_True by done. split; [done|].
    destruct (resolveAll_requests _ _ _ _ Hresolved) as (reads & -> & Hreads).
    split; [done|]. by apply resolveAll_Ok_length in Hresolved.
  - intros Hover r requests.
    destruct (resolveAll executor _ []) as [[resolved|err] requests1]
      eqn:Hresolved;
      destruct (resolveAll_requests _ _ _ _ Hresolved)
        as (reads & -> & Hreads).
    + rewrite decide_True by (rewrite length_app; lia).
      by intros [= <- <-].
    + by intros [= <- <-].
  - intros resolved requests Hresolved Hwithin. rewrite Hresolved.
    rewrite decide_False by lia.
    unfold issue, failWith. simpl.
    by destruct (submitTransaction executor _).
Qed.

End CompositionClaims.

Section CompositionWitness.

Import Transformer Examples Clashes Composition.

Lemma oversized_transaction_rejected_witness :
  composeWriteTransaction (transformers := sampleTransformers) 100
    sampleExecutor (deleteUser :: replicate 100 createOrder) []
  = (Throw (SizeLimitError 102 100),
     [GetItemRequest (key "u2")])
  ∧ ∀ r requests,
      composeWriteTransaction (transformers := sampleTransformers) 100
        emptyExecutor (deleteUser :: replicate 101 createOrder) []
      = (r, requests) →
      is_Ok r = false
      ∧ Forall (fun request => isSubmission request = false) requests.
Proof.
  split.
  - apply (proj1 (oversized_transaction_rejected 100 sampleExecutor
                    (transformers := sampleTransformers)
                    (deleteUser :: replicate 100 createOrder)
                    {| transactionItemList :=
                         replicate 100 (Put (request Order (key "o1")));
                       lazyTransactionWriteItemListLoader :=
                         [sampleLoader User (key "u2")] |}
                    eq_refl)
             [Delete (request User (key "u2"));
              Delete (request User
                        (<["email" := JsString "old@b.c"]> (key "u2")))]
             [GetItemRequest (key "u2")]).
    + reflexivity.
    + vm_compute. lia.
  - apply (proj1 (proj2 (oversized_transaction_rejected 100 emptyExecutor
                           (transformers := sampleTransformers)
                           (deleteUser :: replicate 101 createOrder)
                           {| transactionItemList :=
                                replicate 101 (Put (request Order (key "o1")));
                              lazyTransactionWriteItemListLoader :=
                                [sampleLoader User (key "u2")] |}
                           eq_refl))).
    vm_compute. lia.
Defined.

End CompositionWitness.

(** ** Further properties of the connection *)

Section ConnectionLifecycle.

Import Lifecycle Examples MoreExamples.

Implicit Types (c : Connection) (entityClass : EntityTarget) (w : World).

Variable buildEntityMetadatas :
  list EntityTarget → Result exn (list EntityMetadata).

(** The three ways a call of [connect] can go. *)
Lemma connect_cases w (r : Result exn Connection) (w' : World) :
  connect buildEntityMetadatas w = (r, w') →
  let entities := opt_entities (options (self w)) in
  (isConnected (self w) = true ∧ r = Throw AlreadyConnected ∧ w' = w)
  ∨ (isConnected (self w) = false
     ∧ ∃ metas,
         buildEntityMetadatas entities = Ok metas
         ∧ r = Ok (self w')
         ∧ self w' = set_isConnected true
                       (set_entityMetadatas (registryOf metas) (self w))
         ∧ trace w' = trace w ++ [BuildEntityMetadatas entities])
  ∨ (isConnected (self w) = false
     ∧ ∃ err,
         buildEntityMetadatas entities = Throw err
         ∧ r = Throw err
         ∧ self w' = self w
         ∧ trace w' = trace w ++ [BuildEntityMetadatas entities;
                                  DestroySelf (name (self w))]).
Proof.
  intros Hrun. destruct (isConnected (self w)) eqn:Hc.
  - rewrite connect_connected in Hrun by done.
    left. by inversion Hrun.
  - rewrite connect_fresh in Hrun by done. simpl in Hrun. right.
    destruct (buildEntityMetadatas _) as [metas|err]; inversion Hrun; subst.
    + left. split; [done|]. by exists metas.
    + right. split; [done|]. by exists err.
Qed.

Lemma connect_sameSettings w (r : Result exn Connection) (w' : World) :
  connect buildEntityMetadatas w = (r, w') →
  sameSettings (self w) (self w').
Proof.
  intros Hrun. apply connect_cases in Hrun.
  destruct Hrun as [(_ & _ & ->)|[(_ & metas & _ & _ & -> & _)
                                 |(_ & err & _ & _ & -> & _)]];
    by repeat split.
Qed.

(** X1. [connect] on a connection just constructed, when the builder returns:
    the builder is called once, with the entities of the options; the
    connection returned is the connection itself, now connected, named by the
    options (or [default]), its registry the one built from the metadata. *)
Theorem connect_new_connection (limit : N) (options : ConnectionOptions)
  (metas : list EntityMetadata) :
  buildEntityMetadatas (opt_entities options) = Ok metas →
  ∃ c,
    connect buildEntityMetadatas
      {| self := constructor limit options; trace := [] |}
    = (Ok c, {| self := c;
                trace := [BuildEntityMetadatas (opt_entities options)] |})
    ∧ isConnected c = true
    ∧ _entityMetadatas c = Some (registryOf metas)
    ∧ name c = default "default" (opt_name options)
    ∧ Connection.options c = options.
Proof.
  intros Hbuild. rewrite connect_fresh by done. simpl. rewrite Hbuild.
  eexists. split; [reflexivity|]. by simpl.
Qed.

(** X2. A call of [connect] goes one of three ways. On a connected
    connection it throws and changes nothing. Otherwise the builder is
    called once: when it returns, the connection is connected and
    [destroySelf] is not called; when it throws, [destroySelf] is called once
    with the connection's name, after the builder, and the connection is as
    it was. *)
Theorem connect_outcomes w (r : Result exn Connection) (w' : World) :
  connect buildEntityMetadatas w = (r, w') →
  (isConnected (self w) = true ∧ r = Throw AlreadyConnected ∧ w' = w)
  ∨ (isConnected (self w) = false
     ∧ ∃ metas,
         buildEntityMetadatas (opt_entities (options (self w))) = Ok metas
         ∧ r = Ok (self w')
         ∧ isConnected (self w') = true
         ∧ _entityMetadatas (self w') = Some (registryOf metas)
         ∧ trace w' = trace w
                      ++ [BuildEntityMetadatas
                            (opt_entities (options (self w)))])
  ∨ (isConnected (self w) = false
     ∧ ∃ err,
         buildEntityMetadatas (opt_entities (options (self w))) = Throw err
         ∧ r = Throw err
         ∧ self w' = self w
         ∧ trace w' = trace w
                      ++ [BuildEntityMetadatas
                            (opt_entities (options (self w)));
                          DestroySelf (name (self w))]).
Proof.
  intros Hrun. apply connect_cases in Hrun. simpl in Hrun.
  destruct Hrun as [Hcase|[(Hfresh & metas & Hb & Hr & Hself & Htr)|Hcase]];
    [by left| |by right; right].
  right; left. split; [done|]. exists metas.
  split_and!; [done|done|by rewrite Hself|by rewrite Hself|done].
Qed.

(** X3. Whatever the outcome, [connect] leaves the name, the table, the
    default configuration, the document client and the options of the
    connection as they were, and it only adds to the calls made so far. *)
Theorem connect_keeps_settings w (r : Result exn Connection) (w' : World) :
  connect buildEntityMetadatas w = (r, w') →
  sameSettings (self w) (self w') ∧ trace w `prefix_of` trace w'.
Proof.
  intros Hrun. split; [by eapply connect_sameSettings|].
  apply connect_cases in Hrun.
  destruct Hrun as [(_ & _ & ->)|[(_ & metas & _ & _ & _ & ->)
                                 |(_ & err & _ & _ & _ & ->)]];
    [done|by eexists|by eexists].
Qed.

(** X4. The connected flag and the registry go together: a constructed
    connection has neither, and [connect] keeps them together whatever its
    outcome. Where they go together, [getEntityByTarget] fails on a missing
    registry exactly when the connection is not connected. *)
Theorem registry_goes_with_flag :
  (∀ limit options, registryInstalled (constructor limit options))
  ∧ (∀ w r w',
       registryInstalled (self w) →
       connect buildEntityMetadatas w = (r, w') →
       registryInstalled (self w'))
  ∧ (∀ c entityClass,
       registryInstalled c →
       (getEntityByTarget c entityClass = Throw (TypeError "get")
        ↔ isConnected c = false)).
Proof.
  split; [|split].
  - intros limit options. unfold registryInstalled. simpl.
    split; [done|]. by intros [? ?].
  - intros w r w' Hinv Hrun. apply connect_cases in Hrun.
    destruct Hrun as [(_ & _ & ->)|[(_ & metas & _ & _ & -> & _)
                                   |(_ & err & _ & _ & -> & _)]];
      [done| |done].
    unfold registryInstalled. simpl. split; [by eexists|done].
  - intros c entityClass Hinv. unfold registryInstalled in Hinv.
    unfold getEntityByTarget.
    destruct (_entityMetadatas c) as [registry|] eqn:Hreg.
    + assert (isConnected c = true) as -> by (apply Hinv; by eexists).
      split; [|done].
      by destruct (registry !! target_name entityClass).
    + split; [|done]. intros _.
      destruct (isConnected c); [|done].
      destruct (proj1 Hinv eq_refl) as [? ?]. done.
Qed.

(** X5. A failed [connect] does not connect: the next call runs the builder
    again, whichever builder the connection then has, and connects when that
    one returns. *)
Theorem connect_after_failure
  (retryBuilder : list EntityTarget → Result exn (list EntityMetadata))
  w (err : exn) (w1 : World) (metas : list EntityMetadata) :
  isConnected (self w) = false →
  connect buildEntityMetadatas w = (Throw err, w1) →
  retryBuilder (opt_entities (options (self w))) = Ok metas →
  ∃ w2,
    connect retryBuilder w1 = (Ok (self w2), w2)
    ∧ isConnected (self w2) = true
    ∧ _entityMetadatas (self w2) = Some (registryOf metas)
    ∧ trace w2 = trace w
                 ++ [BuildEntityMetadatas (opt_entities (options (self w)));
                     DestroySelf (name (self w));
                     BuildEntityMetadatas (opt_entities (options (self w)))].
Proof.
  intros Hfresh Hrun Hretry. apply connect_cases in Hrun.
  destruct Hrun as [(Hc & _)|[(_ & ms & _ & Hr & _)
                             |(_ & err' & _ & _ & Hself & Htrace)]];
    [congruence|done|].
  rewrite connect_fresh by (by rewrite Hself). simpl.
  rewrite Hself, Hretry, Htrace.
  exists {| self := set_isConnected true
                      (set_entityMetadatas (registryOf metas) (self w));
            trace := (trace w
                      ++ [BuildEntityMetadatas
                            (opt_entities (options (self w)));
                          DestroySelf (name (self w))])
                     ++ [BuildEntityMetadatas
                           (opt_entities (options (self w)))] |}.
  split; [reflexivity|]. simpl. by rewrite <- app_assoc.
Qed.

End ConnectionLifecycle.

Section ConnectionLifecycleWitnesses.

Import Lifecycle Examples MoreExamples.

Lemma connect_new_connection_witness :
  ∃ c,
    connect sampleBuilder
      {| self := constructor 3000 sampleOptions; trace := [] |}
    = (Ok c, {| self := c; trace := [BuildEntityMetadatas [User; Order]] |})
    ∧ isConnected c = true
    ∧ _entityMetadatas c = Some (registryOf [userMetadata; orderMetadata])
    ∧ name c = "default"
    ∧ Connection.options c = sampleOptions.
Proof.
  apply (connect_new_connection sampleBuilder 3000 sampleOptions
           [userMetadata; orderMetadata]).
  reflexivity.
Defined.

Lemma connect_outcomes_witness :
  connect failingBuilder freshWorld
  = (Throw (Raised "invalid key template"), failedWorld)
  ∧ trace failedWorld
    = [BuildEntityMetadatas [User; Order]; DestroySelf "default"].
Proof.
  assert (connect failingBuilder freshWorld
          = (Throw (Raised "invalid key template"), failedWorld)) as Hrun
    by reflexivity.
  split; [exact Hrun|].
  destruct (connect_outcomes failingBuilder freshWorld _ _ Hrun)
    as [(Hc & _)|[(_ & metas & Hb & _)|(_ & err & _ & _ & _ & Htrace)]];
    [discriminate Hc|discriminate Hb|exact Htrace].
Defined.

Lemma connect_keeps_settings_witness :
  sameSettings (self freshWorld) (self connectedWorld)
  ∧ trace freshWorld `prefix_of` trace connectedWorld.
Proof.
  apply (connect_keeps_settings sampleBuilder freshWorld
           (Ok (self connectedWorld)) connectedWorld).
  vm_compute. reflexivity.
Defined.

Lemma registry_goes_with_flag_witness :
  registryInstalled (self connectedWorld)
  ∧ registryInstalled (self failedWorld).
Proof.
  destruct (registry_goes_with_flag sampleBuilder) as (Hnew & Hkeep & _).
  destruct (registry_goes_with_flag failingBuilder) as (_ & Hkeep' & _).
  split.
  - apply (Hkeep freshWorld (Ok (self connectedWorld)) connectedWorld).
    + apply (Hnew 3000%N sampleOptions).
    + vm_compute. reflexivity.
  - apply (Hkeep' freshWorld (Throw (Raised "invalid key template"))
             failedWorld).
    + apply (Hnew 3000%N sampleOptions).
    + reflexivity.
Defined.

Lemma connect_after_failure_witness :
  ∃ w2,
    connect sampleBuilder failedWorld = (Ok (self w2), w2)
    ∧ isConnected (self w2) = true
    ∧ _entityMetadatas (self w2)
      = Some (registryOf [userMetadata; orderMetadata])
    ∧ trace w2 = [BuildEntityMetadatas [User; Order]; DestroySelf "default";
                  BuildEntityMetadatas [User; Order]].
Proof.
  apply (connect_after_failure failingBuilder sampleBuilder freshWorld
           (Raised "invalid key template") failedWorld
           [userMetadata; orderMetadata]); reflexivity.
Defined.

End ConnectionLifecycleWitnesses.

(** ** Further properties of the lookups *)

Section Lookups.

Import Examples MoreExamples PhysicalName.

Implicit Types (c : Connection) (entityClass : EntityTarget) (w : World).

Lemma last_filter_shadowed {A} (keyOf : A → string)
  (earlier later : list A) (x : A) :
  Forall (fun y => keyOf y ≠ keyOf x) later →
  last (filter (fun y => keyOf y = keyOf x) (earlier ++ x :: later)) = Some x.
Proof.
  intros Hlater. rewrite filter_app, filter_cons_True by done.
  assert (filter (fun y => keyOf y = keyOf x) later = []) as ->.
  { induction Hlater as [|y later Hy _ IH]; [done|].
    by rewrite filter_cons_False. }
  by rewrite last_snoc.
Qed.

Lemma last_filter_NoDup {A} (keyOf : A → string) (l : list A) (x : A) :
  NoDup (keyOf <$> l) →
  x ∈ l →
  last (filter (fun y => keyOf y = keyOf x) l) = Some x.
Proof.
  intros Hnodup Hin.
  apply list_elem_of_split in Hin as [earlier [later ->]].
  apply last_filter_shadowed.
  rewrite fmap_app, fmap_cons in Hnodup.
  apply NoDup_app in Hnodup as (_ & _ & Hnodup).
  apply NoDup_cons in Hnodup as [Hnotin _].
  apply Forall_forall. intros y Hy Heq. apply Hnotin.
  rewrite <- Heq. by apply list_elem_of_fmap_2.
Qed.

Lemma connected_registry
  (buildEntityMetadatas : list EntityTarget → Result exn (list EntityMetadata))
  w (c1 : Connection) (w1 : World) (metas : list EntityMetadata) :
  connect buildEntityMetadatas w = (Ok c1, w1) →
  buildEntityMetadatas (opt_entities (options (self w))) = Ok metas →
  _entityMetadatas (self w1) = Some (registryOf metas).
Proof.
  intros Hfirst Hbuild.
  destruct (connect_Ok_inv _ _ _ _ Hfirst)
    as [metas' (_ & Hbuild' & _ & Hself & _)].
  rewrite Hbuild in Hbuild'. injection Hbuild' as <-. by rewrite Hself.
Qed.

(** X6. When the builder returns metadata of classes with pairwise distinct
    names, every one of them is found again after [connect]: under its
    class, [getEntityByTarget] returns that very metadata,
    [getAttributesForEntity] its attributes, and [hasMetadata] true. *)
Theorem registered_metadata_found
  (buildEntityMetadatas : list EntityTarget → Result exn (list EntityMetadata))
  w (c1 : Connection) (w1 : World) (metas : list EntityMetadata)
  (entityMetadata : EntityMetadata) :
  connect buildEntityMetadatas w = (Ok c1, w1) →
  buildEntityMetadatas (opt_entities (options (self w))) = Ok metas →
  NoDup ((fun m => target_name (target m)) <$> metas) →
  entityMetadata ∈ metas →
  getEntityByTarget (self w1) (target entityMetadata) = Ok entityMetadata
  ∧ getAttributesForEntity (self w1) (target entityMetadata)
    = Ok (entity_attributes entityMetadata)
  ∧ hasMetadata (self w1) (target entityMetadata) = Ok true.
Proof.
  intros Hfirst Hbuild Hnodup Hin.
  pose proof (connected_registry _ _ _ _ _ Hfirst Hbuild) as Hreg.
  assert (registryOf metas !! target_name (target entityMetadata)
          = Some entityMetadata) as Hlook.
  { rewrite registryOf_lookup.
    by apply (last_filter_NoDup (fun m => target_name (target m))). }
  unfold hasMetadata, getEntityByTarget, getAttributesForEntity.
  by rewrite Hreg, Hlook.
Qed.

(** X7. The registry is keyed by class name, and a later declaration
    replaces an earlier one of the same name: when no metadata after
    [entityMetadata] in the builder's result has its class name, every class
    of that name is looked up to [entityMetadata], whatever came before it. *)
Theorem later_declaration_wins
  (buildEntityMetadatas : list EntityTarget → Result exn (list EntityMetadata))
  w (c1 : Connection) (w1 : World) (earlier later : list EntityMetadata)
  (entityMetadata : EntityMetadata) entityClass :
  connect buildEntityMetadatas w = (Ok c1, w1) →
  buildEntityMetadatas (opt_entities (options (self w)))
  = Ok (earlier ++ entityMetadata :: later) →
  Forall (fun m => target_name (target m)
                   ≠ target_name (target entityMetadata)) later →
  target_name entityClass = target_name (target entityMetadata) →
  getEntityByTarget (self w1) entityClass = Ok entityMetadata.
Proof.
  intros Hfirst Hbuild Hlater Hname.
  pose proof (connected_registry _ _ _ _ _ Hfirst Hbuild) as Hreg.
  unfold getEntityByTarget. rewrite Hreg, Hname, registryOf_lookup.
  by rewrite (last_filter_shadowed (fun m => target_name (target m))).
Qed.

(** X8. [getAttributesForEntity] and [getEntityByTarget] find the same
    entities: the first returns exactly the attributes of the metadata the
    second returns, and it throws its own cannot-find-attributes error
    exactly where the second throws the no-such-entity error. *)
Theorem getAttributesForEntity_agrees c entityClass :
  (∀ attrs,
     getAttributesForEntity c entityClass = Ok attrs
     ↔ ∃ entityMetadata,
         getEntityByTarget c entityClass = Ok entityMetadata
         ∧ entity_attributes entityMetadata = attrs)
  ∧ (getAttributesForEntity c entityClass
     = Throw (CannotFindAttributes (target_name entityClass))
     ↔ getEntityByTarget c entityClass
       = Throw (NoSuchEntity (target_name entityClass)))
  ∧ (is_Ok (getAttributesForEntity c entityClass)
     = is_Ok (getEntityByTarget c entityClass)).
Proof.
  unfold getAttributesForEntity, getEntityByTarget.
  destruct (_entityMetadatas c) as [registry|].
  - destruct (registry !! target_name entityClass) as [m|].
    + split; [|split; [|done]].
      * intros attrs. split.
        -- intros [= <-]. by exists m.
        -- by intros [m' [[= <-] <-]].
      * split; intros; discriminate.
    + split; [|split; [|done]].
      * intros attrs. split; [done|]. by intros [m' [? _]].
      * done.
  - split; [|split; [|done]].
    + intros attrs. split; [done|]. by intros [m' [? _]].
    + split; intros; discriminate.
Qed.

(** X9. For a registered entity [getAutoUpdateAttributes] returns, in the
    order of the entity's attributes, exactly those whose [autoUpdate] is
    set; for an entity that is not registered it throws the
    cannot-find-attributes error. *)
Theorem getAutoUpdateAttributes_exact c (registry : gmap string EntityMetadata)
  entityClass :
  _entityMetadatas c = Some registry →
  (∀ entityMetadata,
     registry !! target_name entityClass = Some entityMetadata →
     ∃ autos,
       getAutoUpdateAttributes c entityClass = Ok autos
       ∧ sublist autos (entity_attributes entityMetadata)
       ∧ ∀ attr, attr ∈ autos
                 ↔ attr ∈ entity_attributes entityMetadata
                   ∧ attr_autoUpdate attr = true)
  ∧ (registry !! target_name entityClass = None →
     getAutoUpdateAttributes c entityClass
     = Throw (CannotFindAttributes (target_name entityClass))).
Proof.
  intros Hreg. unfold getAutoUpdateAttributes, getAttributesForEntity.
  rewrite Hreg. split.
  - intros m Hlook. rewrite Hlook. simpl. eexists. split; [reflexivity|].
    split; [apply filter_sublist|].
    intros attr. by rewrite list_elem_of_In, filter_In, <- list_elem_of_In.
  - intros Hlook. by rewrite Hlook.
Qed.

(** X10. [getUniqueAttributesForEntity] throws exactly when
    [getEntityByTarget] throws, and then the same error: the no-such-entity
    error for an entity that is not registered, never the
    cannot-find-attributes error of the attribute lookup it also makes. What
    it returns is part of what [getAttributesForEntity] returns. *)
Theorem getUniqueAttributesForEntity_errors c entityClass :
  (∀ err,
     getUniqueAttributesForEntity c entityClass = Throw err
     ↔ getEntityByTarget c entityClass = Throw err)
  ∧ getUniqueAttributesForEntity c entityClass
    ≠ Throw (CannotFindAttributes (target_name entityClass))
  ∧ (∀ uniques,
       getUniqueAttributesForEntity c entityClass = Ok uniques →
       ∃ attrs,
         getAttributesForEntity c entityClass = Ok attrs
         ∧ sublist uniques attrs).
Proof.
  unfold getUniqueAttributesForEntity, getAttributesForEntity,
    getEntityByTarget.
  destruct (_entityMetadatas c) as [registry|]; simpl.
  - destruct (registry !! target_name entityClass) as [m|]; simpl.
    + split; [|split].
      * intros err. split; intros; discriminate.
      * discriminate.
      * intros uniques [= <-]. eexists. split; [done|]. apply filter_sublist.
    + split; [|split]; [|discriminate|discriminate].
      intros err. split; intros [= <-]; reflexivity.
  - split; [|split]; [|discriminate|discriminate].
    intros err. split; intros [= <-]; reflexivity.
Qed.

(** X11. For a registered entity whose primary-key schema has no
    interpolations, [getUniqueAttributesForEntity] returns every attribute
    that has [unique] set. *)
Theorem getUniqueAttributesForEntity_no_interpolations c
  (registry : gmap string EntityMetadata) (entityMetadata : EntityMetadata)
  entityClass :
  _entityMetadatas c = Some registry →
  registry !! target_name entityClass = Some entityMetadata →
  default ∅ (_interpolations (metadata (primaryKey (schema entityMetadata))))
  = ∅ →
  getUniqueAttributesForEntity c entityClass
  = Ok (List.filter (fun attr => bool_decide (is_Some (attr_unique attr)))
          (entity_attributes entityMetadata)).
Proof.
  intros Hreg Hlook Hempty.
  unfold getUniqueAttributesForEntity, getEntityByTarget,
    getAttributesForEntity.
  rewrite Hreg, Hlook. simpl. f_equal. apply filter_ext.
  intros attr.
  assert (Helpers.isUsedForPrimaryKey (primaryKey (schema entityMetadata))
            (attr_name attr) = false) as ->; [|by rewrite andb_true_r].
  apply not_true_iff_false.
  unfold Helpers.isUsedForPrimaryKey. rewrite isUsedForPrimaryKey_true.
  intros [key [pattern [Hkey _]]]. rewrite Hempty in Hkey.
  by rewrite lookup_empty in Hkey.
Qed.

(** X12. Giving a schema one more key: an attribute is used for the primary
    key exactly when the array of the new key holds it or the other keys of
    the schema use it. *)
Theorem isUsedForPrimaryKey_insert (interpolations : gmap string (list string))
  (key : string) (currInterpolation : list string) (attributeName : string) :
  isUsedForPrimaryKey
    {| metadata :=
         {| _interpolations :=
              Some (<[key := currInterpolation]> interpolations) |} |}
    attributeName
  = includes currInterpolation attributeName
    || isUsedForPrimaryKey
         {| metadata :=
              {| _interpolations := Some (delete key interpolations) |} |}
         attributeName.
Proof.
  apply eq_true_iff_eq.
  rewrite orb_true_iff, !isUsedForPrimaryKey_true, includes_true.
  unfold usedInPrimaryKey. simpl. split.
  - intros [k [pattern [Hlook Hin]]].
    destruct (decide (key = k)) as [->|Hne].
    + rewrite lookup_insert_eq in Hlook. injection Hlook as <-. by left.
    + rewrite lookup_insert_ne in Hlook by done. right.
      exists k, pattern. by rewrite lookup_delete_ne.
  - intros [Hin|[k [pattern [Hlook Hin]]]].
    + exists key, currInterpolation. by rewrite lookup_insert_eq.
    + destruct (decide (key = k)) as [->|Hne].
      * by rewrite lookup_delete_eq in Hlook.
      * rewrite lookup_delete_ne in Hlook by done.
        exists k, pattern. by rewrite lookup_insert_ne.
Qed.

(** X13. On a connection whose [connect] succeeded,
    [getEntityByPhysicalName] throws its own error for a physical name
    without a definition; for a name whose definition is of a declared class
    it returns the metadata registered under that class name, and for one of
    a class that is not declared it throws the no-such-entity error of
    [getEntityByTarget]. *)
Theorem getEntityByPhysicalName_outcomes
  (getEntityDefinition : string → option EntityDefinition)
  (buildEntityMetadatas : list EntityTarget → Result exn (list EntityMetadata))
  w (c1 : Connection) (w1 : World) (metas : list EntityMetadata)
  (physicalName : string) :
  connect buildEntityMetadatas w = (Ok c1, w1) →
  buildEntityMetadatas (opt_entities (options (self w))) = Ok metas →
  (getEntityDefinition physicalName = None →
   getEntityByPhysicalName getEntityDefinition (self w1) physicalName
   = Throw (NoSuchPhysicalName physicalName))
  ∧ (∀ entitySpec,
       getEntityDefinition physicalName = Some entitySpec →
       (declared metas (definition_target entitySpec) →
        ∃ entityMetadata,
          getEntityByPhysicalName getEntityDefinition (self w1) physicalName
          = Ok entityMetadata
          ∧ entityMetadata ∈ metas
          ∧ target_name (target entityMetadata)
            = target_name (definition_target entitySpec))
       ∧ (¬ declared metas (definition_target entitySpec) →
          getEntityByPhysicalName getEntityDefinition (self w1) physicalName
          = Throw (FromLookup
                     (NoSuchEntity
                        (target_name (definition_target entitySpec)))))).
Proof.
  intros Hfirst Hbuild.
  pose proof (connected_registry _ _ _ _ _ Hfirst Hbuild) as Hreg.
  unfold getEntityByPhysicalName. split.
  - by intros ->.
  - intros entitySpec ->.
    rewrite (getEntityByTarget_lookup _ _ _ Hreg). split.
    + intros Hdeclared. apply declared_lookup in Hdeclared as [m Hlook].
      exists m. rewrite Hlook. split; [done|].
      rewrite registryOf_lookup in Hlook.
      by apply last_filter_Some in Hlook.
    + intros Hundeclared.
      destruct (registryOf metas !! _) as [m|] eqn:Hlook; [|done].
      destruct Hundeclared. apply declared_lookup. by exists m.
Qed.

End Lookups.

Section LookupWitnesses.

Import Examples MoreExamples PhysicalName.

Lemma registered_metadata_found_witness :
  getEntityByTarget (self connectedWorld) Order = Ok orderMetadata
  ∧ getAttributesForEntity (self connectedWorld) Order
    = Ok [AttributeMetadata "id" None]
  ∧ hasMetadata (self connectedWorld) Order = Ok true.
Proof.
  apply (registered_metadata_found sampleBuilder freshWorld
           (self connectedWorld) connectedWorld
           [userMetadata; orderMetadata] orderMetadata
           sample_connect sample_build).
  - by apply (bool_decide_unpack (NoDup ["User"; "Order"])).
  - set_solver.
Defined.

Lemma later_declaration_wins_witness :
  getEntityByTarget (self (connect duplicateBuilder freshWorld).2) User
  = Ok userMetadataV2.
Proof.
  apply (later_declaration_wins duplicateBuilder freshWorld
           (self (connect duplicateBuilder freshWorld).2)
           (connect duplicateBuilder freshWorld).2
           [userMetadata; orderMetadata] [] userMetadataV2 User).
  - vm_compute. reflexivity.
  - reflexivity.
  - constructor.
  - reflexivity.
Defined.

Lemma getAutoUpdateAttributes_exact_witness :
  (∃ autos,
     getAutoUpdateAttributes (self connectedWorld) User = Ok autos
     ∧ sublist autos userAttributes
     ∧ ∀ attr, attr ∈ autos
               ↔ attr ∈ userAttributes ∧ attr_autoUpdate attr = true)
  ∧ getAutoUpdateAttributes (self connectedWorld) Invoice
    = Throw (CannotFindAttributes "Invoice").
Proof.
  split.
  - apply (proj1 (getAutoUpdateAttributes_exact (self connectedWorld)
                    (registryOf [userMetadata; orderMetadata]) User
                    ltac:(vm_compute; reflexivity)) userMetadata).
    vm_compute. reflexivity.
  - apply (proj2 (getAutoUpdateAttributes_exact (self connectedWorld)
                    (registryOf [userMetadata; orderMetadata]) Invoice
                    ltac:(vm_compute; reflexivity))).
    vm_compute. reflexivity.
Defined.

Lemma getUniqueAttributesForEntity_no_interpolations_witness :
  getUniqueAttributesForEntity
    (self (connect duplicateBuilder freshWorld).2) User
  = Ok [AttributeMetadata "email" (Some (lockKey "email"))].
Proof.
  apply (getUniqueAttributesForEntity_no_interpolations
           (self (connect duplicateBuilder freshWorld).2)
           (registryOf [userMetadata; orderMetadata; userMetadataV2])
           userMetadataV2 User); vm_compute; reflexivity.
Defined.

Lemma getEntityByPhysicalName_outcomes_witness :
  getEntityByPhysicalName sampleDefinitions (self connectedWorld) "order"
  = Throw (NoSuchPhysicalName "order")
  ∧ getEntityByPhysicalName sampleDefinitions (self connectedWorld) "invoice"
    = Throw (FromLookup (NoSuchEntity "Invoice"))
  ∧ ∃ entityMetadata,
      getEntityByPhysicalName sampleDefinitions (self connectedWorld) "user"
      = Ok entityMetadata
      ∧ entityMetadata ∈ [userMetadata; orderMetadata]
      ∧ target_name (target entityMetadata) = "User".
Proof.
  split; [|split].
  - apply (proj1 (getEntityByPhysicalName_outcomes sampleDefinitions
                    sampleBuilder freshWorld _ connectedWorld _ "order"
                    sample_connect sample_build)).
    reflexivity.
  - apply (proj2 (proj2 (getEntityByPhysicalName_outcomes sampleDefinitions
                           sampleBuilder freshWorld _ connectedWorld _
                           "invoice" sample_connect sample_build)
                    {| definition_target := Invoice |} eq_refl)).
    intros [m [Hin Hname]]. vm_compute in Hname.
    repeat (apply elem_of_cons in Hin as [->|Hin]; [discriminate|]).
    by apply elem_of_nil in Hin.
  - apply (proj1 (proj2 (getEntityByPhysicalName_outcomes sampleDefinitions
                           sampleBuilder freshWorld _ connectedWorld _
                           "user" sample_connect sample_build)
                    {| definition_target := User |} eq_refl)).
    exists userMetadata. split; [set_solver|reflexivity].
Defined.

End LookupWitnesses.

(** ** Further properties of the transformer *)

Section MoreReductions.

Import Transformer Composer ReadItems.

Context {transformers : LowOrderTransformers}.

Lemma readCallback_transformReadItem (acc : ReadAcc)
  (transactionItem : TransactionItem) :
  readCallback acc transactionItem
  = (input ← transformReadItem transactionItem;
     mret {| read_transactionItemList :=
               read_transactionItemList acc ++ [Get input] |}).
Proof. by destruct transactionItem. Qed.

Lemma reduce_readCallback (transactionItems : list TransactionItem)
  (acc : ReadAcc) :
  reduce readCallback transactionItems acc
  = (inputs ← transformReadAll transactionItems;
     mret {| read_transactionItemList :=
               read_transactionItemList acc ++ (Get <$> inputs) |}).
Proof.
  revert acc. induction transactionItems as [|item rest IH]; intros acc; simpl.
  - destruct acc. simpl. by rewrite app_nil_r.
  - rewrite readCallback_transformReadItem.
    destruct (transformReadItem item) as [input|err]; simpl; [|done].
    rewrite IH. destruct (transformReadAll rest) as [inputs|err]; simpl;
      [|done].
    by rewrite <- app_assoc.
Qed.

Lemma transformReadAll_Ok (transactionItems : list TransactionItem)
  (inputs : list GetItemInput) :
  transformReadAll transactionItems = Ok inputs
  ↔ Forall2 (fun item input => transformReadItem item = Ok input)
      transactionItems inputs.
Proof.
  revert inputs.
  induction transactionItems as [|item rest IH]; intros inputs; simpl.
  - split.
    + intros [= <-]. constructor.
    + intros Hall. by inversion Hall.
  - split.
    + destruct (transformReadItem item) as [input|err] eqn:Hitem; simpl;
        [|done].
      destruct (transformReadAll rest) as [inputs'|err]; simpl; [|done].
      intros [= <-]. constructor; [done|]. by apply IH.
    + intros Hall. inversion Hall as [|? input ? inputs' Hi His]; subst.
      apply IH in His. by rewrite Hi, His.
Qed.

(** The write reduction from any accumulator, when the items transform. *)
Lemma reduce_writeCallback_Ok (transactionItems : list TransactionItem)
  (acc result : WriteAcc) :
  innerTransformTransactionWriteItems transactionItems = Ok result →
  reduce writeCallback transactionItems acc
  = Ok {| transactionItemList :=
            transactionItemList acc ++ transactionItemList result;
          lazyTransactionWriteItemListLoader :=
            lazyTransactionWriteItemListLoader acc
            ++ lazyTransactionWriteItemListLoader result |}.
Proof.
  unfold innerTransformTransactionWriteItems.
  rewrite !reduce_writeCallback.
  destruct (transformAll transactionItems) as [rs|err]; simpl; [|done].
  by intros [= <-].
Qed.

Lemma collect_Ok (transactionItems : list TransactionItem) (acc : WriteAcc) :
  innerTransformTransactionWriteItems transactionItems = Ok acc →
  ∃ rs,
    Forall2 (fun item r => transformItem item = Ok r) transactionItems rs
    ∧ transactionItemList acc = concat (operationsOf <$> rs)
    ∧ lazyTransactionWriteItemListLoader acc = concat (pendingOf <$> rs).
Proof.
  rewrite innerTransformTransactionWriteItems_collect. unfold collect.
  destruct (transformAll transactionItems) as [rs|err] eqn:Hall; simpl;
    [|done].
  intros [= <-]. exists rs. by apply transformAll_Ok in Hall.
Qed.

Lemma Forall2_concat_elem {A B C} (P : A → B → Prop) (f : B → list C)
  (l : list A) (k : list B) (x : C) :
  Forall2 P l k →
  x ∈ concat (f <$> k) →
  ∃ a b, a ∈ l ∧ P a b ∧ x ∈ f b.
Proof.
  induction 1 as [|a b l k Hab _ IH]; simpl.
  - intros Hin. by apply elem_of_nil in Hin.
  - intros Hin. apply elem_of_app in Hin as [Hin|Hin].
    + exists a, b. split; [by left|done].
    + destruct (IH Hin) as (a' & b' & Ha' & HP & Hx).
      exists a', b'. split; [by right|done].
Qed.

Lemma transformItem_Pending (transactionItem : TransactionItem)
  (loader : LazyTransactionWriteItemListLoader) :
  transformItem transactionItem = Ok (Pending loader) →
  (∃ item primaryKey body options,
     transactionItem = UpdateItem item primaryKey body options
     ∧ toDynamoUpdateItem item primaryKey body options = Ok (Lazy loader))
  ∨ (∃ item primaryKey options,
       transactionItem = DeleteItem item primaryKey options
       ∧ toDynamoDeleteItem item primaryKey options = Ok (Lazy loader)).
Proof.
  destruct transactionItem as [item options|item pk body options
                              |item pk options|item pk options|shape];
    simpl; try done.
  - by destruct (toDynamoPutItem item options) as [[input|items]|err].
  - destruct (toDynamoUpdateItem item pk body options)
      as [[input|loader']|err] eqn:Hupdate; simpl; try done.
    intros [= <-]. left. by exists item, pk, body, options.
  - destruct (toDynamoDeleteItem item pk options)
      as [[input|loader']|err] eqn:Hdelete; simpl; try done.
    intros [= <-]. right. by exists item, pk, options.
Qed.

(** An item that is not a create item fills one place, in the operation list
    or in the queue. *)
Lemma transformItem_one_place (transactionItem : TransactionItem)
  (r : ItemResult) :
  isTransactionAddCreateItem transactionItem = false →
  transformItem transactionItem = Ok r →
  length (operationsOf r) + length (pendingOf r) = 1.
Proof.
  destruct transactionItem as [item options|item pk body options
                              |item pk options|item pk options|shape];
    simpl; try done; intros _.
  - destruct (toDynamoUpdateItem item pk body options) as [[input|loader]|err];
      simpl; try done; by intros [= <-].
  - destruct (toDynamoDeleteItem item pk options) as [[input|loader]|err];
      simpl; try done; by intros [= <-].
Qed.

Lemma transformItem_update (transactionItem : TransactionItem)
  (operations : list TransactWriteItem) :
  isTransactionAddUpdateItem transactionItem = true →
  transformItem transactionItem = Ok (Resolved operations) →
  ∃ update : UpdateItemInput,
    operations = [Update update] ∧ update !! "ReturnValues" = None.
Proof.
  destruct transactionItem as [item options|item pk body options
                              |item pk options|item pk options|shape];
    simpl; try done; intros _.
  destruct (toDynamoUpdateItem item pk body options) as [[input|loader]|err];
    simpl; try done.
  intros [= <-]. eexists. split; [done|]. apply lookup_delete_eq.
Qed.

Lemma transformReadItem_Ok (transactionItem : TransactionItem)
  (input : GetItemInput) :
  transformReadItem transactionItem = Ok input
  ↔ ∃ item primaryKey options,
      transactionItem = GetItem item primaryKey options
      ∧ toDynamoGetItem item primaryKey options = Ok input.
Proof.
  split.
  - destruct transactionItem as [| | |item pk options|]; simpl; try done.
    intros Hget. by exists item, pk, options.
  - by intros (item & pk & options & -> & Hget).
Qed.

(** X14. A read transaction is transformed exactly when every item is a get
    item whose transformer returns, and then to one [Get] operation per item,
    in the order of the items, each with the request its transformer
    returned. *)
Theorem read_items_transformed (transactionItems : list TransactionItem)
  (acc : ReadAcc) :
  (innerTransformTransactionReadItems transactionItems = Ok acc
   ↔ ∃ inputs,
       Forall2 (fun transactionItem input =>
                  ∃ item primaryKey options,
                    transactionItem = GetItem item primaryKey options
                    ∧ toDynamoGetItem item primaryKey options = Ok input)
               transactionItems inputs
       ∧ read_transactionItemList acc = Get <$> inputs)
  ∧ (innerTransformTransactionReadItems transactionItems = Ok acc →
     length (read_transactionItemList acc) = length transactionItems).
Proof.
  assert (innerTransformTransactionReadItems transactionItems = Ok acc
          ↔ ∃ inputs,
              Forall2 (fun item input => transformReadItem item = Ok input)
                      transactionItems inputs
              ∧ read_transactionItemList acc = Get <$> inputs) as Hiff.
  { unfold innerTransformTransactionReadItems. rewrite reduce_readCallback.
    simpl. split.
    - destruct (transformReadAll transactionItems) as [inputs|err] eqn:Hall;
        simpl; [|done].
      intros [= <-]. exists inputs. by apply transformReadAll_Ok in Hall.
    - intros [inputs [Hall Hlist]]. apply transformReadAll_Ok in Hall.
      rewrite Hall. simpl. destruct acc. simpl in Hlist. by subst. }
  split.
  - rewrite Hiff. split; intros [inputs [Hall Hlist]]; exists inputs;
      (split; [|done]);
      (eapply Forall2_impl; [exact Hall|]);
      intros item input; by rewrite transformReadItem_Ok.
  - intros Hrun. apply Hiff in Hrun as [inputs [Hall ->]].
    rewrite length_fmap. symmetry. by eapply Forall2_length.
Qed.

(** X15. The exception of the first item that fails is the exception of the
    transformation, be it the invalid-item error or what a low-order
    transformer threw; the items after it play no part, and the entry point
    has written the one log record [Before]. *)
Theorem first_failure_reported (before after : list TransactionItem)
  (transactionItem : TransactionItem) (err : exn) (log : list LogEntry) :
  (is_Ok (innerTransformTransactionWriteItems before) = true →
   transformItem transactionItem = Throw err →
   innerTransformTransactionWriteItems (before ++ transactionItem :: after)
   = Throw err
   ∧ toDynamoWriteTransactionItems (before ++ transactionItem :: after) log
     = (Throw err,
        log ++ [logEntry TRANSACTION_WRITE Before
                  (LoggedItems (before ++ transactionItem :: after))]))
  ∧ (is_Ok (innerTransformTransactionReadItems before) = true →
     transformReadItem transactionItem = Throw err →
     innerTransformTransactionReadItems (before ++ transactionItem :: after)
     = Throw err
     ∧ toDynamoReadTransactionItems (before ++ transactionItem :: after) log
       = (Throw err,
          log ++ [logEntry TRANSACTION_READ Before
                    (LoggedItems (before ++ transactionItem :: after))])).
Proof.
  split.
  - intros Hbefore Hitem.
    assert (innerTransformTransactionWriteItems
              (before ++ transactionItem :: after) = Throw err) as Hthrow.
    { unfold innerTransformTransactionWriteItems in *. rewrite reduce_app.
      destruct (reduce writeCallback before _) as [acc|err']; [|done].
      simpl. rewrite writeCallback_absorb, Hitem. done. }
    split; [done|]. by rewrite toDynamoWriteTransactionItems_log, Hthrow.
  - intros Hbefore Hitem.
    assert (innerTransformTransactionReadItems
              (before ++ transactionItem :: after) = Throw err) as Hthrow.
    { unfold innerTransformTransactionReadItems in *. rewrite reduce_app.
      destruct (reduce readCallback before _) as [acc|err']; [|done].
      simpl. rewrite readCallback_transformReadItem, Hitem. done. }
    split; [done|]. by rewrite toDynamoReadTransactionItems_log, Hthrow.
Qed.

(** X16. Transforming is compatible with putting transactions one after the
    other: the empty transaction gives the empty lists, and when two
    transactions are transformed, the two put together are transformed to
    the operations of the first followed by those of the second, and
    likewise for the queue of loaders. *)
Theorem transform_app (items1 items2 : list TransactionItem)
  (acc1 acc2 : WriteAcc) (read1 read2 : ReadAcc) :
  innerTransformTransactionWriteItems []
  = Ok {| transactionItemList := [];
          lazyTransactionWriteItemListLoader := [] |}
  ∧ innerTransformTransactionReadItems []
    = Ok {| read_transactionItemList := [] |}
  ∧ (innerTransformTransactionWriteItems items1 = Ok acc1 →
     innerTransformTransactionWriteItems items2 = Ok acc2 →
     innerTransformTransactionWriteItems (items1 ++ items2)
     = Ok {| transactionItemList :=
               transactionItemList acc1 ++ transactionItemList acc2;
             lazyTransactionWriteItemListLoader :=
               lazyTransactionWriteItemListLoader acc1
               ++ lazyTransactionWriteItemListLoader acc2 |})
  ∧ (innerTransformTransactionReadItems items1 = Ok read1 →
     innerTransformTransactionReadItems items2 = Ok read2 →
     innerTransformTransactionReadItems (items1 ++ items2)
     = Ok {| read_transactionItemList :=
               read_transactionItemList read1
               ++ read_transactionItemList read2 |}).
Proof.
  split; [done|]. split; [done|]. split.
  - intros H1 H2. unfold innerTransformTransactionWriteItems at 1.
    rewrite reduce_app.
    unfold innerTransformTransactionWriteItems in H1. rewrite H1. simpl.
    by apply reduce_writeCallback_Ok.
  - intros H1 H2. unfold innerTransformTransactionReadItems in *.
    rewrite reduce_app, H1. simpl.
    rewrite reduce_readCallback in *.
    destruct (transformReadAll items2) as [inputs|err]; simpl in *; [|done].
    by injection H2 as <-.
Qed.

(** X17. The transformation invents nothing: every loader in the queue is
    the deferred expansion [toDynamoUpdateItem] or [toDynamoDeleteItem]
    returned for an update or delete item of the transaction, and every
    operation in the list is among the operations one of the items resolved
    to. *)
Theorem outputs_come_from_items (transactionItems : list TransactionItem)
  (acc : WriteAcc) :
  innerTransformTransactionWriteItems transactionItems = Ok acc →
  (∀ loader,
     loader ∈ lazyTransactionWriteItemListLoader acc →
     (∃ item primaryKey body options,
        UpdateItem item primaryKey body options ∈ transactionItems
        ∧ toDynamoUpdateItem item primaryKey body options = Ok (Lazy loader))
     ∨ (∃ item primaryKey options,
          DeleteItem item primaryKey options ∈ transactionItems
          ∧ toDynamoDeleteItem item primaryKey options = Ok (Lazy loader)))
  ∧ (∀ operation,
       operation ∈ transactionItemList acc →
       ∃ transactionItem operations,
         transactionItem ∈ transactionItems
         ∧ transformItem transactionItem = Ok (Resolved operations)
         ∧ operation ∈ operations).
Proof.
  intros Hrun. apply collect_Ok in Hrun as (rs & Hall & -> & ->). split.
  - intros loader Hin.
    destruct (Forall2_concat_elem _ _ _ _ _ Hall Hin)
      as (transactionItem & r & Hitem & Hr & Hloader).
    destruct r as [operations|loader']; simpl in Hloader;
      [by apply elem_of_nil in Hloader|].
    apply list_elem_of_singleton in Hloader as ->.
    destruct (transformItem_Pending _ _ Hr)
      as [(item & pk & body & options & -> & Hlazy)
         |(item & pk & options & -> & Hlazy)].
    + left. by exists item, pk, body, options.
    + right. by exists item, pk, options.
  - intros operation Hin.
    destruct (Forall2_concat_elem _ _ _ _ _ Hall Hin)
      as (transactionItem & r & Hitem & Hr & Hop).
    destruct r as [operations|loader]; simpl in Hop;
      [|by apply elem_of_nil in Hop].
    by exists transactionItem, operations.
Qed.

(** X18. The queue never holds more loaders than the transaction has items;
    a transaction of create items only leaves the queue empty; and in a
    transaction without create items every item takes exactly one place, in
    the operation list or in the queue. *)
Theorem one_place_per_item (transactionItems : list TransactionItem)
  (acc : WriteAcc) :
  innerTransformTransactionWriteItems transactionItems = Ok acc →
  length (lazyTransactionWriteItemListLoader acc) ≤ length transactionItems
  ∧ (Forall (fun item => isTransactionAddCreateItem item = true)
            transactionItems →
     lazyTransactionWriteItemListLoader acc = [])
  ∧ (Forall (fun item => isTransactionAddCreateItem item = false)
            transactionItems →
     length (transactionItemList acc)
     + length (lazyTransactionWriteItemListLoader acc)
     = length transactionItems).
Proof.
  intros Hrun. apply collect_Ok in Hrun as (rs & Hall & -> & ->).
  split; [|split].
  - induction Hall as [|item r items rs Hr _ IH]; [simpl; lia|].
    rewrite fmap_cons. cbn [concat length]. rewrite length_app.
    destruct r; cbn [pendingOf length]; lia.
  - intros Hcreates.
    induction Hall as [|item r items rs Hr _ IH]; [done|].
    apply Forall_cons in Hcreates as [Hcreate Hcreates].
    rewrite fmap_cons. cbn [concat]. rewrite IH by done.
    destruct r as [operations|loader]; [done|].
    destruct (transformItem_Pending _ _ Hr)
      as [(? & ? & ? & ? & -> & _)|(? & ? & ? & -> & _)]; discriminate.
  - intros Hnone.
    induction Hall as [|item r items rs Hr _ IH]; [done|].
    apply Forall_cons in Hnone as [Hitem Hnone].
    rewrite !fmap_cons. cbn [concat length]. rewrite !length_app.
    pose proof (transformItem_one_place _ _ Hitem Hr). specialize (IH Hnone).
    lia.
Qed.

(** X19. A transaction of update items only is transformed to [Update]
    operations only, none of which has a [ReturnValues] property. *)
Theorem updates_never_return_values (transactionItems : list TransactionItem)
  (acc : WriteAcc) :
  Forall (fun item => isTransactionAddUpdateItem item = true)
         transactionItems →
  innerTransformTransactionWriteItems transactionItems = Ok acc →
  Forall (fun operation =>
            ∃ update : UpdateItemInput,
              operation = Update update ∧ update !! "ReturnValues" = None)
         (transactionItemList acc).
Proof.
  intros Hupdates Hrun. apply Forall_forall. intros operation Hin.
  apply collect_Ok in Hrun as (rs & Hall & Hlist & _). rewrite Hlist in Hin.
  destruct (Forall2_concat_elem _ _ _ _ _ Hall Hin)
    as (transactionItem & r & Hitem & Hr & Hop).
  destruct r as [operations|loader]; simpl in Hop;
    [|by apply elem_of_nil in Hop].
  rewrite Forall_forall in Hupdates.
  destruct (transformItem_update _ _ (Hupdates _ Hitem) Hr)
    as (update & -> & Hnone).
  apply list_elem_of_singleton in Hop as ->. by exists update.
Qed.

(** X20. The requests of create and delete items are passed on as their
    transformer returned them, a [ReturnValues] property included: a plain
    put input is appended as one [Put], a list is appended whole, a plain
    delete input is appended as one [Delete]; the queue is left alone. *)
Theorem put_and_delete_passed_on (before : list TransactionItem)
  (acc : WriteAcc) :
  innerTransformTransactionWriteItems before = Ok acc →
  (∀ item options input,
     toDynamoPutItem item options = Ok (PutSingle input) →
     innerTransformTransactionWriteItems (before ++ [CreateItem item options])
     = Ok (push_item [Put input] acc))
  ∧ (∀ item options items,
       toDynamoPutItem item options = Ok (PutList items) →
       innerTransformTransactionWriteItems
         (before ++ [CreateItem item options])
       = Ok (push_item items acc))
  ∧ (∀ item primaryKey options input,
       toDynamoDeleteItem item primaryKey options = Ok (Plain input) →
       innerTransformTransactionWriteItems
         (before ++ [DeleteItem item primaryKey options])
       = Ok (push_item [Delete input] acc)).
Proof.
  intros Hbefore. unfold innerTransformTransactionWriteItems in *.
  split; [|split]; intros; rewrite reduce_app, Hbefore; simpl;
    by match goal with H : _ = Ok _ |- _ => rewrite H end.
Qed.

(** X21. An update whose transformer output has no [ReturnValues] property
    is appended as the transformer returned it. *)
Theorem update_without_ReturnValues (before : list TransactionItem)
  (acc : WriteAcc) (item : EntityTarget) (primaryKey body : JsObject)
  (options : option JsObject) (input : UpdateItemInput) :
  innerTransformTransactionWriteItems before = Ok acc →
  toDynamoUpdateItem item primaryKey body options = Ok (Plain input) →
  input !! "ReturnValues" = None →
  innerTransformTransactionWriteItems
    (before ++ [UpdateItem item primaryKey body options])
  = Ok (push_item [Update input] acc).
Proof.
  intros Hbefore Hupdate Hnone. unfold innerTransformTransactionWriteItems in *.
  rewrite reduce_app, Hbefore. simpl. rewrite Hupdate. simpl.
  unfold dropProp. by rewrite delete_id.
Qed.

(** X22. The entry points return what the reductions return and only add to
    the log: first the record [Before] with the items of the transaction,
    then, when the transformation returned, the record [After] with its
    result. *)
Theorem entry_points_log (items : list TransactionItem) (log : list LogEntry) :
  (∃ added,
     toDynamoWriteTransactionItems items log
     = (innerTransformTransactionWriteItems items, log ++ added)
     ∧ head added
       = Some (logEntry TRANSACTION_WRITE Before (LoggedItems items))
     ∧ (∀ transformed,
          innerTransformTransactionWriteItems items = Ok transformed →
          added = [logEntry TRANSACTION_WRITE Before (LoggedItems items);
                   logEntry TRANSACTION_WRITE After (LoggedWrite transformed)])
     ∧ (is_Ok (innerTransformTransactionWriteItems items) = false →
        length added = 1))
  ∧ (∃ added,
       toDynamoReadTransactionItems items log
       = (innerTransformTransactionReadItems items, log ++ added)
       ∧ head added
         = Some (logEntry TRANSACTION_READ Before (LoggedItems items))
       ∧ (∀ transformed,
            innerTransformTransactionReadItems items = Ok transformed →
            added = [logEntry TRANSACTION_READ Before (LoggedItems items);
                     logEntry TRANSACTION_READ After (LoggedRead transformed)])
       ∧ (is_Ok (innerTransformTransactionReadItems items) = false →
          length added = 1)).
Proof.
  split.
  - rewrite toDynamoWriteTransactionItems_log.
    destruct (innerTransformTransactionWriteItems items) as [t|err];
      eexists; (split; [reflexivity|]); (split; [reflexivity|]);
      split; try done.
    by intros ? [= <-].
  - rewrite toDynamoReadTransactionItems_log.
    destruct (innerTransformTransactionReadItems items) as [t|err];
      eexists; (split; [reflexivity|]); (split; [reflexivity|]);
      split; try done.
    by intros ? [= <-].
Qed.

End MoreReductions.

Section MoreReductionsWitnesses.

Import Transformer Composer ReadItems Examples MoreExamples.

Lemma read_items_transformed_witness :
  innerTransformTransactionReadItems (transformers := sampleTransformers)
    [getOrder; getUser]
  = Ok {| read_transactionItemList :=
            [Get (request Order (key "o1")); Get (request User (key "u1"))] |}
  ∧ length [Get (request Order (key "o1")); Get (request User (key "u1"))]
    = length [getOrder; getUser].
Proof.
  pose proof (read_items_transformed (transformers := sampleTransformers)
                [getOrder; getUser]
                {| read_transactionItemList :=
                     [Get (request Order (key "o1"));
                      Get (request User (key "u1"))] |}) as [Hiff Hlength].
  assert (innerTransformTransactionReadItems
            (transformers := sampleTransformers) [getOrder; getUser]
          = Ok {| read_transactionItemList :=
                    [Get (request Order (key "o1"));
                     Get (request User (key "u1"))] |}) as Hrun.
  { apply Hiff.
    exists [request Order (key "o1"); request User (key "u1")].
    split; [|reflexivity].
    repeat constructor.
    - by exists Order, (key "o1"), None.
    - by exists User, (key "u1"), None. }
  split; [exact Hrun|exact (Hlength Hrun)].
Defined.

Lemma first_failure_reported_witness :
  innerTransformTransactionWriteItems (transformers := sampleTransformers)
    ([createOrder] ++ deleteInvoice :: [getOrder])
  = Throw (NoSuchEntity "Invoice")
  ∧ innerTransformTransactionReadItems (transformers := sampleTransformers)
      ([getOrder] ++ deleteInvoice :: [getUser])
    = Throw (InvalidTransactionReadItemError deleteInvoice).
Proof.
  split.
  - apply (proj1 (first_failure_reported (transformers := sampleTransformers)
                    [createOrder] [getOrder] deleteInvoice
                    (NoSuchEntity "Invoice") []));
      reflexivity.
  - apply (proj2 (first_failure_reported (transformers := sampleTransformers)
                    [getOrder] [getUser] deleteInvoice
                    (InvalidTransactionReadItemError deleteInvoice) []));
      reflexivity.
Defined.

Lemma transform_app_witness :
  innerTransformTransactionWriteItems (transformers := sampleTransformers)
    ([createOrder] ++ [deleteUser; deleteOrder])
  = Ok {| transactionItemList :=
            [Put (request Order (key "o1"))]
            ++ [Delete (request Order (key "o2"))];
          lazyTransactionWriteItemListLoader :=
            [] ++ [sampleLoader User (key "u2")] |}.
Proof.
  apply (proj1 (proj2 (proj2 (transform_app
                                (transformers := sampleTransformers)
           [createOrder] [deleteUser; deleteOrder]
           {| transactionItemList := [Put (request Order (key "o1"))];
              lazyTransactionWriteItemListLoader := [] |}
           {| transactionItemList := [Delete (request Order (key "o2"))];
              lazyTransactionWriteItemListLoader :=
                [sampleLoader User (key "u2")] |}
           {| read_transactionItemList := [] |}
           {| read_transactionItemList := [] |}))));
    reflexivity.
Defined.

Lemma outputs_come_from_items_witness :
  (∃ item primaryKey body options,
     UpdateItem item primaryKey body options ∈ [createOrder; deleteUser]
     ∧ toDynamoUpdateItem (LowOrderTransformers := sampleTransformers)
         item primaryKey body options
       = Ok (Lazy (sampleLoader User (key "u2"))))
  ∨ (∃ item primaryKey options,
       DeleteItem item primaryKey options ∈ [createOrder; deleteUser]
       ∧ toDynamoDeleteItem (LowOrderTransformers := sampleTransformers)
           item primaryKey options
         = Ok (Lazy (sampleLoader User (key "u2")))).
Proof.
  apply (proj1 (outputs_come_from_items (transformers := sampleTransformers)
                  [createOrder; deleteUser]
                  {| transactionItemList := [Put (request Order (key "o1"))];
                     lazyTransactionWriteItemListLoader :=
                       [sampleLoader User (key "u2")] |}
                  eq_refl)).
  set_solver.
Defined.

Lemma one_place_per_item_witness :
  length [Update (dropProp
                    (<["ReturnValues" := JsString "ALL_NEW"]>
                       (request Order (key "o1" ∪ {["total" := JsNumber 7]})))
                    "ReturnValues")]
  + length [sampleLoader User (key "u2"); sampleLoader User (key "u1")]
  = length [updateOrder; deleteUser; updateUserEmail].
Proof.
  apply (proj2 (proj2 (one_place_per_item (transformers := sampleTransformers)
           [updateOrder; deleteUser; updateUserEmail]
           {| transactionItemList :=
                [Update (dropProp
                           (<["ReturnValues" := JsString "ALL_NEW"]>
                              (request Order
                                 (key "o1" ∪ {["total" := JsNumber 7]})))
                           "ReturnValues")];
              lazyTransactionWriteItemListLoader :=
                [sampleLoader User (key "u2"); sampleLoader User (key "u1")] |}
           eq_refl))).
  repeat constructor.
Defined.

Lemma updates_never_return_values_witness :
  Forall (fun operation =>
            ∃ update : UpdateItemInput,
              operation = Update update ∧ update !! "ReturnValues" = None)
         [Update (dropProp
                    (<["ReturnValues" := JsString "ALL_NEW"]>
                       (request Order (key "o1" ∪ {["total" := JsNumber 7]})))
                    "ReturnValues")].
Proof.
  apply (updates_never_return_values (transformers := sampleTransformers)
           [updateOrder; updateUserEmail]
           {| transactionItemList :=
                [Update (dropProp
                           (<["ReturnValues" := JsString "ALL_NEW"]>
                              (request Order
                                 (key "o1" ∪ {["total" := JsNumber 7]})))
                           "ReturnValues")];
              lazyTransactionWriteItemListLoader :=
                [sampleLoader User (key "u1")] |}).
  - repeat constructor.
  - reflexivity.
Defined.

Lemma put_and_delete_passed_on_witness :
  innerTransformTransactionWriteItems (transformers := bareTransformers)
    ([createOrder] ++ [deleteOrder])
  = Ok {| transactionItemList :=
            [Put (request Order (key "o1"));
             Delete (<["ReturnValues" := JsString "ALL_OLD"]>
                       (request Order (key "o2")))];
          lazyTransactionWriteItemListLoader := [] |}.
Proof.
  apply (proj2 (proj2 (put_and_delete_passed_on
                         (transformers := bareTransformers) [createOrder]
                         {| transactionItemList :=
                              [Put (request Order (key "o1"))];
                            lazyTransactionWriteItemListLoader := [] |}
                         eq_refl))
           Order (key "o2") None).
  reflexivity.
Defined.

Lemma update_without_ReturnValues_witness :
  innerTransformTransactionWriteItems (transformers := bareTransformers)
    ([createOrder] ++ [updateOrder])
  = Ok {| transactionItemList :=
            [Put (request Order (key "o1"));
             Update (request Order (key "o1" ∪ {["total" := JsNumber 7]}))];
          lazyTransactionWriteItemListLoader := [] |}.
Proof.
  apply (update_without_ReturnValues (transformers := bareTransformers)
           [createOrder]
           {| transactionItemList := [Put (request Order (key "o1"))];
              lazyTransactionWriteItemListLoader := [] |}
           Order (key "o1") {["total" := JsNumber 7]} None
           (request Order (key "o1" ∪ {["total" := JsNumber 7]})));
    reflexivity.
Defined.

Lemma entry_points_log_witness :
  ∃ added,
    toDynamoWriteTransactionItems (transformers := sampleTransformers)
      [getOrder] []
    = (Throw (InvalidTransactionWriteItemError getOrder), [] ++ added)
    ∧ length added = 1.
Proof.
  destruct (proj1 (entry_points_log (transformers := sampleTransformers)
                     [getOrder] []))
    as (added & Hrun & _ & _ & Hlength).
  exists added. split; [exact Hrun|]. by apply Hlength.
Defined.

End MoreReductionsWitnesses.
